(** * Epic Events CRM: authorization and domain-invariant layer

    A shallow embedding of the service layer of the Epic Events CRM
    ([app/auth], [app/models], [app/repositories], [app/services]) and the
    properties of its permission matrix, ownership rules and contract /
    event state machine.

    Conventions of the embedding
    - [Department] is a [str]-valued enum in the source; its members are
      the strings "COMMERCIAL", "SUPPORT" and "MANAGEMENT", and the
      permission dictionary is looked up with the department as key, so a
      department is a [string] here.
    - Tables of the database are finite maps from the integer primary key
      to the row; [session.get] is a map lookup.
    - [Decimal] amounts have two decimal places ([decimal_places=2]); they
      are integers counting hundredths.
    - [datetime] values are integers (a timestamp).
    - The caller of a service is a row of the users table and has its
      primary key; the foreign keys [commercial_id] and
      [support_contact_id] are optional.
    - A service call is a function from the database to a result (a value
      or the exception raised) and the database after the call.
    - Of the constraints of the schema, the unique index on
      [clients.email] is the one a service can run into; a commit that
      would break it raises and stores nothing. *)

From stdpp Require Import gmap strings list fin_maps pretty sorting.
From Stdlib Require Import ZArith Lia.

Local Open Scope Z_scope.

(** ** app/auth/models.py *)

Definition Department := string.
Definition COMMERCIAL : Department := "COMMERCIAL".
Definition SUPPORT : Department := "SUPPORT".
Definition MANAGEMENT : Department := "MANAGEMENT".

Record User := mkUser {
  user_id : Z;
  user_email : string;
  user_department : Department;
  user_is_active : bool
}.

Definition is_management (u : User) : bool :=
  bool_decide (user_department u = MANAGEMENT).

Definition is_commercial (u : User) : bool :=
  bool_decide (user_department u = COMMERCIAL).

Definition is_support (u : User) : bool :=
  bool_decide (user_department u = SUPPORT).

(** The [permissions] dictionary literal of [User.has_permission]. *)
Definition permissions : gmap Department (gmap string (list string)) :=
  list_to_map [
    (MANAGEMENT, list_to_map [
       ("create", ["user"; "contract"; "event"]);
       ("update", ["user"; "contract"; "event"]);
       ("delete", ["user"]);
       ("read", ["user"; "client"; "contract"; "event"]) ]);
    (COMMERCIAL, list_to_map [
       ("create", ["client"; "event"]);
       ("update", ["client"; "contract"]);
       ("delete", []);
       ("read", ["client"; "contract"; "event"]) ]);
    (SUPPORT, list_to_map [
       ("create", []);
       ("update", ["event"]);
       ("delete", []);
       ("read", ["client"; "contract"; "event"]) ]) ].

Definition has_permission (u : User) (action resource : string) : bool :=
  let dept_permissions := default ∅ (permissions !! user_department u) in
  let allowed_resources := default [] (dept_permissions !! action) in
  bool_decide (resource ∈ allowed_resources).

(** The table of section 4.1 of the specification, row by row, as the
    list of granted (department, action, resource) triples. *)
Definition section_4_1_table : list (string * string * string) :=
  [ ("MANAGEMENT", "create", "user"); ("MANAGEMENT", "create", "contract");
    ("MANAGEMENT", "create", "event");
    ("MANAGEMENT", "update", "user"); ("MANAGEMENT", "update", "contract");
    ("MANAGEMENT", "update", "event");
    ("MANAGEMENT", "delete", "user");
    ("MANAGEMENT", "read", "user"); ("MANAGEMENT", "read", "client");
    ("MANAGEMENT", "read", "contract"); ("MANAGEMENT", "read", "event");
    ("COMMERCIAL", "create", "client"); ("COMMERCIAL", "create", "event");
    ("COMMERCIAL", "update", "client"); ("COMMERCIAL", "update", "contract");
    ("COMMERCIAL", "read", "client"); ("COMMERCIAL", "read", "contract");
    ("COMMERCIAL", "read", "event");
    ("SUPPORT", "update", "event");
    ("SUPPORT", "read", "client"); ("SUPPORT", "read", "contract");
    ("SUPPORT", "read", "event") ].

Definition departments : list Department := [MANAGEMENT; COMMERCIAL; SUPPORT].
Definition actions : list string := ["create"; "read"; "update"; "delete"].
Definition resources : list string := ["user"; "client"; "contract"; "event"].

(** ** app/models *)

Record Client := mkClient {
  client_full_name : string;
  client_email : string;
  client_phone : string;
  client_company_name : string;
  client_commercial_id : option Z
}.

Record Contract := mkContract {
  contract_total_amount : Z;
  contract_amount_due : Z;
  contract_signed : bool;
  contract_client_id : Z;
  contract_commercial_id : option Z
}.

Record Event := mkEvent {
  event_name : string;
  event_date_start : Z;
  event_date_end : Z;
  event_location : string;
  event_attendees : Z;
  event_notes : option string;
  event_contract_id : Z;
  event_support_contact_id : option Z
}.

Module ContractModel.

Definition amount_paid (self : Contract) : Z :=
  contract_total_amount self - contract_amount_due self.

Definition sign_contract (self : Contract) : Contract :=
  mkContract (contract_total_amount self) (contract_amount_due self) true
             (contract_client_id self) (contract_commercial_id self).

Definition update_payment (self : Contract) (amount_paid : Z) : Contract :=
  mkContract (contract_total_amount self)
             (Z.max 0 (contract_total_amount self - amount_paid))
             (contract_signed self)
             (contract_client_id self) (contract_commercial_id self).

End ContractModel.

Module EventModel.

Definition assign_support (self : Event) (support_user_id : Z) : Event :=
  mkEvent (event_name self) (event_date_start self) (event_date_end self)
          (event_location self) (event_attendees self) (event_notes self)
          (event_contract_id self) (Some support_user_id).

End EventModel.

(** ** The database and the effects of a service call *)

Record Database := mkDatabase {
  users : gmap Z User;
  clients : gmap Z Client;
  contracts : gmap Z Contract;
  events : gmap Z Event
}.

Definition set_clients (t : gmap Z Client) (db : Database) : Database :=
  mkDatabase (users db) t (contracts db) (events db).

Definition set_contracts (t : gmap Z Contract) (db : Database) : Database :=
  mkDatabase (users db) (clients db) t (events db).

Definition set_events (t : gmap Z Event) (db : Database) : Database :=
  mkDatabase (users db) (clients db) (contracts db) t.

(** The exceptions the services raise; [IntegrityError] is the one
    [session.commit()] raises when a row would break a unique index. *)
Inductive Error :=
  | PermissionError (msg : string)
  | ValueError (msg : string)
  | IntegrityError.

Inductive Result (A : Type) :=
  | Ok (a : A)
  | Raised (e : Error).
Arguments Ok {A} a.
Arguments Raised {A} e.

Definition Service (A : Type) : Type := Database -> Result A * Database.

#[export] Instance service_ret : MRet Service :=
  fun A (a : A) db => (Ok a, db).

#[export] Instance service_bind : MBind Service :=
  fun A B (f : A -> Service B) (m : Service A) db =>
    match m db with
    | (Ok a, db') => f a db'
    | (Raised e, db') => (Raised e, db')
    end.

Definition raise {A} (e : Error) : Service A := fun db => (Raised e, db).

(** [if cond: raise e] *)
Definition raise_if (cond : bool) (e : Error) : Service unit :=
  if cond then raise e else mret tt.

Definition is_permission_error {A} (r : Result A) : bool :=
  match r with
  | Raised (PermissionError _) => true
  | _ => false
  end.

(** The primary key the database gives a new row: one more than the
    largest key of the table, 1 in an empty table. *)
Definition next_id {A} (table : gmap Z A) : Z :=
  1 + map_fold (fun k _ acc => Z.max k acc) 0 table.

(** ** app/repositories *)

Module BaseRepository.
Section Generic.
Context {Row : Type}.
Variable table : Database -> gmap Z Row.
Variable set_table : gmap Z Row -> Database -> Database.
(** The unique indexes of the table: whether the commit of the row under
    the id would break one. *)
Variable breaks_unique : gmap Z Row -> Z -> Row -> bool.

(** [session.add(instance); session.commit(); session.refresh(instance)]:
    the row is stored under a new primary key, unless the commit raises;
    the session is then rolled back and nothing is stored. *)
Definition create (instance : Row) : Service (Z * Row) :=
  fun db =>
    let id := next_id (table db) in
    if breaks_unique (table db) id instance then (Raised IntegrityError, db)
    else (Ok (id, instance), set_table (<[id := instance]> (table db)) db).

Definition get_by_id (id : Z) : Service (option Row) :=
  fun db => (Ok (table db !! id), db).

(** [session.add(instance); session.commit()] on a row that is stored. *)
Definition save (id : Z) (instance : Row) : Service unit :=
  fun db =>
    if breaks_unique (table db) id instance then (Raised IntegrityError, db)
    else (Ok tt, set_table (<[id := instance]> (table db)) db).

(** [update(id, **kwargs)]: [setattrs] is the loop that sets every
    keyword whose value is not [None] on the instance. *)
Definition update (id : Z) (setattrs : Row -> Row)
  : Service (option Row) :=
  instance ← get_by_id id;
  match instance with
  | None => mret None
  | Some instance =>
      let instance := setattrs instance in
      _ ← save id instance;
      mret (Some instance)
  end.

(** [select(self.model).offset(skip).limit(limit)] then [.all()]: the
    rows come in the order the database returns them. *)
Definition get_all (skip limit : nat) : Service (list (Z * Row)) :=
  fun db => (Ok (take limit (drop skip (map_to_list (table db)))), db).

(** [select(self.model).where(cond)] then [.all()] *)
Definition select_where (cond : Row -> bool) : Service (list (Z * Row)) :=
  fun db =>
    (Ok (List.filter (fun row => cond row.2) (map_to_list (table db))), db).

(** [select(func.count()).select_from(self.model)] *)
Definition count : Service Z :=
  fun db => (Ok (Z.of_nat (size (table db))), db).
End Generic.
End BaseRepository.

(** [Contract] and [Event] declare no unique column. *)
Definition no_unique_index {Row : Type} (table : gmap Z Row) (id : Z)
    (row : Row) : bool :=
  false.

(** [Client.email] is declared [unique=True]: the commit raises when the
    row is new, or its address is being changed, and another row already
    has the address. (An address that is not changed is not written, so
    it is not tested.) *)
Definition clients_email_unique (table : gmap Z Client) (id : Z)
    (row : Client) : bool :=
  negb (bool_decide (client_email <$> table !! id = Some (client_email row)))
  && existsb
       (fun other : Z * Client =>
          bool_decide (other.1 <> id)
          && bool_decide (client_email other.2 = client_email row))
       (map_to_list table).

(** Keyword arguments of [update]: a keyword that is absent, or whose
    value is [None], is [None] here. *)
Record ClientKwargs := mkClientKwargs {
  kw_full_name : option string;
  kw_email : option string;
  kw_phone : option string;
  kw_company_name : option string;
  kw_commercial_id : option Z
}.

Record ContractKwargs := mkContractKwargs {
  kw_total_amount : option Z;
  kw_amount_due : option Z;
  kw_signed : option bool
}.

Record EventKwargs := mkEventKwargs {
  kw_name : option string;
  kw_event_date_start : option Z;
  kw_event_date_end : option Z;
  kw_location : option string;
  kw_attendees : option Z;
  kw_notes : option string
}.

Module ClientRepository.

Definition create :=
  BaseRepository.create clients set_clients clients_email_unique.
Definition get_by_id := BaseRepository.get_by_id clients.

Definition setattrs (kwargs : ClientKwargs) (instance : Client) : Client :=
  mkClient
    (default (client_full_name instance) (kw_full_name kwargs))
    (default (client_email instance) (kw_email kwargs))
    (default (client_phone instance) (kw_phone kwargs))
    (default (client_company_name instance) (kw_company_name kwargs))
    (match kw_commercial_id kwargs with
     | Some v => Some v
     | None => client_commercial_id instance
     end).

Definition update (id : Z) (kwargs : ClientKwargs) :=
  BaseRepository.update clients set_clients clients_email_unique id
    (setattrs kwargs).

(** [select(Client).where(Client.email == email)] then [.first()] *)
Definition get_by_email (email : string) : Service (option (Z * Client)) :=
  fun db =>
    (Ok (List.find (fun row => bool_decide (client_email row.2 = email))
                   (map_to_list (clients db))), db).


Definition get_all := BaseRepository.get_all clients.

Definition get_by_commercial (commercial_id : Z) :=
  BaseRepository.select_where clients
    (fun c => bool_decide (client_commercial_id c = Some commercial_id)).

Definition get_clients_without_commercial :=
  BaseRepository.select_where clients
    (fun c => bool_decide (client_commercial_id c = None)).

Definition assign_commercial (client_id : Z) (commercial_id : Z)
  : Service (option Client) :=
  client ← get_by_id client_id;
  match client with
  | Some client =>
      let client :=
        mkClient (client_full_name client) (client_email client)
                 (client_phone client) (client_company_name client)
                 (Some commercial_id) in
      _ ← BaseRepository.save clients set_clients clients_email_unique
            client_id client;
      mret (Some client)
  | None => mret None
  end.

End ClientRepository.

Module ContractRepository.

Definition create :=
  BaseRepository.create contracts set_contracts no_unique_index.
Definition get_by_id := BaseRepository.get_by_id contracts.

Definition setattrs (kwargs : ContractKwargs) (instance : Contract)
  : Contract :=
  mkContract
    (default (contract_total_amount instance) (kw_total_amount kwargs))
    (default (contract_amount_due instance) (kw_amount_due kwargs))
    (default (contract_signed instance) (kw_signed kwargs))
    (contract_client_id instance)
    (contract_commercial_id instance).

Definition update (id : Z) (kwargs : ContractKwargs) :=
  BaseRepository.update contracts set_contracts no_unique_index id
    (setattrs kwargs).

Definition sign_contract (contract_id : Z) : Service (option Contract) :=
  contract ← get_by_id contract_id;
  match contract with
  | Some contract =>
      let contract := ContractModel.sign_contract contract in
      _ ← BaseRepository.save contracts set_contracts no_unique_index
            contract_id contract;
      mret (Some contract)
  | None => mret None
  end.

Definition update_payment (contract_id : Z) (amount_paid : Z)
  : Service (option Contract) :=
  contract ← get_by_id contract_id;
  match contract with
  | Some contract =>
      let contract := ContractModel.update_payment contract amount_paid in
      _ ← BaseRepository.save contracts set_contracts no_unique_index
            contract_id contract;
      mret (Some contract)
  | None => mret None
  end.


Definition get_all := BaseRepository.get_all contracts.

Definition get_by_client (client_id : Z) :=
  BaseRepository.select_where contracts
    (fun c => bool_decide (contract_client_id c = client_id)).

Definition get_by_commercial (commercial_id : Z) :=
  BaseRepository.select_where contracts
    (fun c => bool_decide (contract_commercial_id c = Some commercial_id)).

Definition get_unsigned_contracts :=
  BaseRepository.select_where contracts
    (fun c => bool_decide (contract_signed c = false)).

Definition get_unpaid_contracts :=
  BaseRepository.select_where contracts
    (fun c => bool_decide (0 < contract_amount_due c)).

End ContractRepository.

(** [order_by(Event.event_date_start)] and
    [order_by(Event.event_date_end.desc())] *)
Definition by_start_ascending (a b : Z * Event) : Prop :=
  event_date_start a.2 <= event_date_start b.2.

Definition by_end_descending (a b : Z * Event) : Prop :=
  event_date_end b.2 <= event_date_end a.2.

#[export] Instance by_start_ascending_dec a b :
  Decision (by_start_ascending a b).
Proof. unfold by_start_ascending. apply _. Defined.

#[export] Instance by_end_descending_dec a b :
  Decision (by_end_descending a b).
Proof. unfold by_end_descending. apply _. Defined.

Module EventRepository.

Definition create :=
  BaseRepository.create events set_events no_unique_index.
Definition get_by_id := BaseRepository.get_by_id events.

Definition setattrs (kwargs : EventKwargs) (instance : Event) : Event :=
  mkEvent
    (default (event_name instance) (kw_name kwargs))
    (default (event_date_start instance) (kw_event_date_start kwargs))
    (default (event_date_end instance) (kw_event_date_end kwargs))
    (default (event_location instance) (kw_location kwargs))
    (default (event_attendees instance) (kw_attendees kwargs))
    (match kw_notes kwargs with
     | Some v => Some v
     | None => event_notes instance
     end)
    (event_contract_id instance)
    (event_support_contact_id instance).

Definition update (id : Z) (kwargs : EventKwargs) :=
  BaseRepository.update events set_events no_unique_index id
    (setattrs kwargs).

Definition assign_support_contact (event_id : Z) (support_contact_id : Z)
  : Service (option Event) :=
  event ← get_by_id event_id;
  match event with
  | Some event =>
      let event := EventModel.assign_support event support_contact_id in
      _ ← BaseRepository.save events set_events no_unique_index event_id
            event;
      mret (Some event)
  | None => mret None
  end.


Definition get_all := BaseRepository.get_all events.

Definition get_by_contract (contract_id : Z) :=
  BaseRepository.select_where events
    (fun e => bool_decide (event_contract_id e = contract_id)).

Definition get_by_support_contact (support_contact_id : Z) :=
  BaseRepository.select_where events
    (fun e => bool_decide (event_support_contact_id e
                           = Some support_contact_id)).

Definition get_events_without_support :=
  BaseRepository.select_where events
    (fun e => bool_decide (event_support_contact_id e = None)).

(** [now] is the clock read by [datetime.utcnow()]; the rows are ordered
    by [event_date_start]. *)
Definition get_upcoming_events (now : Z) : Service (list (Z * Event)) :=
  rows ← BaseRepository.select_where events
           (fun e => bool_decide (now < event_date_start e));
  mret (merge_sort by_start_ascending rows).

(** The rows are ordered by [event_date_end], latest first. *)
Definition get_past_events (now : Z) : Service (list (Z * Event)) :=
  rows ← BaseRepository.select_where events
           (fun e => bool_decide (event_date_end e < now));
  mret (merge_sort by_end_descending rows).

Definition get_events_in_date_range (start_date end_date : Z) :=
  BaseRepository.select_where events
    (fun e => bool_decide (start_date <= event_date_start e)
              && bool_decide (event_date_end e <= end_date)).

End EventRepository.

(** ** app/auth/utils.py and app/auth/service.py *)

(** The decoded token: of the dictionary [jwt.decode] returns, only the
    key "user_id" is read ([payload.get("user_id")]). *)
Record Payload := mkPayload {
  payload_user_id : option Z
}.

(** What callers pass as [token]: the string read from the token file,
    or (in [EventService.assign_support_contact]) an integer id. *)
Inductive Token :=
  | TokenStr (s : string)
  | TokenInt (n : Z).

Module AuthUtils.
Section WithJwt.
(** [jwt.decode(token, settings.jwt_secret_key, algorithms=[...])]: the
    payload, or [None] when it raises [ExpiredSignatureError] or
    [InvalidTokenError]. *)
Variable jwt_decode : Token -> option Payload.

Definition decode_access_token (token : Token) : option Payload :=
  jwt_decode token.
End WithJwt.
End AuthUtils.

(** PyJWT decodes [str] and [bytes] only: on any other token it raises
    [DecodeError] ("Invalid token type"), a subclass of
    [InvalidTokenError]. *)
Definition rejects_non_string (jwt_decode : Token -> option Payload) : Prop :=
  forall n, jwt_decode (TokenInt n) = None.

Module AuthService.
Section WithJwt.
Variable jwt_decode : Token -> option Payload.

Definition get_current_user (token : Token) : Service (option User) :=
  match AuthUtils.decode_access_token jwt_decode token with
  | None => mret None
  | Some payload =>
      match payload_user_id payload with
      | None => mret None
      | Some user_id =>
          if bool_decide (user_id = 0) then mret None
          else fun db => (Ok (users db !! user_id), db)
      end
  end.
End WithJwt.
End AuthService.

(** ** app/services/client_service.py *)

Module ClientService.

Definition create_client (full_name email phone company_name : string)
    (commercial_id : Z) (current_user : User) : Service (Z * Client) :=
  _ ← raise_if (negb (has_permission current_user "create" "client"))
        (PermissionError "You don't have permission to create clients");
  existing_client ← ClientRepository.get_by_email email;
  _ ← raise_if (bool_decide (is_Some existing_client))
        (ValueError ("Client with email " +:+ email +:+ " already exists"));
  ClientRepository.create
    (mkClient full_name email phone company_name (Some commercial_id)).

Definition update_client (client_id : Z) (current_user : User)
    (full_name email phone company_name : option string)
    (commercial_id : option Z) : Service (option Client) :=
  client ← ClientRepository.get_by_id client_id;
  match client with
  | None =>
      raise (ValueError
               ("Client with ID " +:+ pretty client_id +:+ " not found"))
  | Some client =>
      _ ← (if is_commercial current_user then
             raise_if
               (bool_decide (client_commercial_id client
                             ≠ Some (user_id current_user)))
               (PermissionError "You can only update your own clients")
           else
             raise_if (negb (is_management current_user))
               (PermissionError
                  "You don't have permission to update clients"));
      _ ← (match email with
           | Some e =>
               if bool_decide (e ≠ "")
                  && bool_decide (e ≠ client_email client)
               then
                 existing ← ClientRepository.get_by_email e;
                 raise_if (bool_decide (is_Some existing))
                   (ValueError ("Email " +:+ e +:+ " is already in use"))
               else mret tt
           | None => mret tt
           end);
      let update_data :=
        mkClientKwargs full_name email phone company_name
          (match commercial_id with
           | Some v => if is_management current_user then Some v else None
           | None => None
           end) in
      ClientRepository.update client_id update_data
  end.


Definition get_client (client_id : Z) (current_user : User)
    : Service (option Client) :=
  _ ← raise_if (negb (has_permission current_user "read" "client"))
        (PermissionError "You don't have permission to view clients");
  ClientRepository.get_by_id client_id.

(** [if filter_commercial_id:] holds for an id that is given and not 0. *)
Definition list_clients (current_user : User)
    (filter_commercial_id : option Z) : Service (list (Z * Client)) :=
  _ ← raise_if (negb (has_permission current_user "read" "client"))
        (PermissionError "You don't have permission to view clients");
  match filter_commercial_id with
  | Some id =>
      if bool_decide (id <> 0) then ClientRepository.get_by_commercial id
      else if is_commercial current_user then
        ClientRepository.get_by_commercial (user_id current_user)
      else ClientRepository.get_all 0 100
  | None =>
      if is_commercial current_user then
        ClientRepository.get_by_commercial (user_id current_user)
      else ClientRepository.get_all 0 100
  end.

End ClientService.

(** ** app/services/contract_service.py *)

Module ContractService.

Definition create_contract (client_id : Z) (total_amount amount_due : Z)
    (commercial_id : Z) (current_user : User) : Service (Z * Contract) :=
  _ ← raise_if (negb (has_permission current_user "create" "contract"))
        (PermissionError "You don't have permission to create contracts");
  client ← ClientRepository.get_by_id client_id;
  match client with
  | None =>
      raise (ValueError
               ("Client with ID " +:+ pretty client_id +:+ " not found"))
  | Some _ =>
      ContractRepository.create
        (mkContract total_amount amount_due false client_id
                    (Some commercial_id))
  end.

Definition update_contract (contract_id : Z) (current_user : User)
    (total_amount amount_due : option Z) (signed : option bool)
    : Service (option Contract) :=
  contract ← ContractRepository.get_by_id contract_id;
  match contract with
  | None =>
      raise (ValueError
               ("Contract with ID " +:+ pretty contract_id +:+ " not found"))
  | Some contract =>
      _ ← (if is_commercial current_user then
             raise_if
               (bool_decide (contract_commercial_id contract
                             ≠ Some (user_id current_user)))
               (PermissionError "You can only update contracts for your clients")
           else
             raise_if (negb (is_management current_user))
               (PermissionError
                  "You don't have permission to update contracts"));
      let update_data := mkContractKwargs total_amount amount_due signed in
      ContractRepository.update contract_id update_data
  end.

(** [log_contract_signed], called before returning, writes to the log and
    leaves the database and the result alone. *)
Definition sign_contract (contract_id : Z) (current_user : User)
    : Service (option Contract) :=
  contract ← ContractRepository.get_by_id contract_id;
  match contract with
  | None =>
      raise (ValueError
               ("Contract with ID " +:+ pretty contract_id +:+ " not found"))
  | Some contract =>
      _ ← (if is_commercial current_user then
             raise_if
               (bool_decide (contract_commercial_id contract
                             ≠ Some (user_id current_user)))
               (PermissionError "You can only sign contracts for your clients")
           else
             raise_if (negb (is_management current_user))
               (PermissionError
                  "You don't have permission to sign contracts"));
      _ ← raise_if (contract_signed contract)
            (ValueError "Contract is already signed");
      ContractRepository.sign_contract contract_id
  end.

Definition update_payment (contract_id : Z) (amount_paid : Z)
    (current_user : User) : Service (option Contract) :=
  contract ← ContractRepository.get_by_id contract_id;
  match contract with
  | None =>
      raise (ValueError
               ("Contract with ID " +:+ pretty contract_id +:+ " not found"))
  | Some contract =>
      _ ← (if is_commercial current_user then
             raise_if
               (bool_decide (contract_commercial_id contract
                             ≠ Some (user_id current_user)))
               (PermissionError "You can only update payments for your contracts")
           else
             raise_if (negb (is_management current_user))
               (PermissionError
                  "You don't have permission to update payments"));
      ContractRepository.update_payment contract_id amount_paid
  end.


Definition get_contract (contract_id : Z) (current_user : User)
    : Service (option Contract) :=
  _ ← raise_if (negb (has_permission current_user "read" "contract"))
        (PermissionError "You don't have permission to view contracts");
  ContractRepository.get_by_id contract_id.

(** [elif client_id:] holds for an id that is given and not 0. *)
Definition list_contracts (current_user : User)
    (unsigned_only unpaid_only : bool) (client_id : option Z)
    : Service (list (Z * Contract)) :=
  _ ← raise_if (negb (has_permission current_user "read" "contract"))
        (PermissionError "You don't have permission to view contracts");
  if unsigned_only then ContractRepository.get_unsigned_contracts
  else if unpaid_only then ContractRepository.get_unpaid_contracts
  else if bool_decide (default 0 client_id <> 0) then
    ContractRepository.get_by_client (default 0 client_id)
  else if is_commercial current_user then
    ContractRepository.get_by_commercial (user_id current_user)
  else ContractRepository.get_all 0 100.

End ContractService.

(** ** app/services/event_service.py *)

Module EventService.

Definition create_event (name : string) (contract_id : Z)
    (event_date_start event_date_end : Z) (location : string)
    (attendees : Z) (notes : option string) (current_user : User)
    : Service (Z * Event) :=
  _ ← raise_if (negb (has_permission current_user "create" "event"))
        (PermissionError "You don't have permission to create events");
  contract ← ContractRepository.get_by_id contract_id;
  match contract with
  | None =>
      raise (ValueError
               ("Contract with ID " +:+ pretty contract_id +:+ " not found"))
  | Some contract =>
      _ ← raise_if (negb (contract_signed contract))
            (ValueError "Cannot create event for unsigned contract");
      _ ← (if is_commercial current_user then
             raise_if
               (bool_decide (contract_commercial_id contract
                             ≠ Some (user_id current_user)))
               (PermissionError
                  "You can only create events for your contracts")
           else mret tt);
      EventRepository.create
        (mkEvent name event_date_start event_date_end location attendees
                 notes contract_id None)
  end.

Definition update_event (event_id : Z) (current_user : User)
    (name : option string) (event_date_start event_date_end : option Z)
    (location : option string) (attendees : option Z)
    (notes : option string) : Service (option Event) :=
  event ← EventRepository.get_by_id event_id;
  match event with
  | None =>
      raise (ValueError
               ("Event with ID " +:+ pretty event_id +:+ " not found"))
  | Some event =>
      _ ← (if is_support current_user then
             raise_if
               (bool_decide (event_support_contact_id event
                             ≠ Some (user_id current_user)))
               (PermissionError
                  "You can only update events assigned to you")
           else
             raise_if (negb (is_management current_user))
               (PermissionError
                  "You don't have permission to update events"));
      let update_data :=
        mkEventKwargs name event_date_start event_date_end location
                      attendees notes in
      EventRepository.update event_id update_data
  end.

Definition get_event (event_id : Z) (current_user : User)
    : Service (option Event) :=
  _ ← raise_if (negb (has_permission current_user "read" "event"))
        (PermissionError "You don't have permission to view events");
  EventRepository.get_by_id event_id.

(** [now] is the clock the repository reads. *)
Definition list_events (now : Z) (current_user : User)
    (without_support upcoming_only past_only : bool) (contract_id : option Z)
    : Service (list (Z * Event)) :=
  _ ← raise_if (negb (has_permission current_user "read" "event"))
        (PermissionError "You don't have permission to view events");
  if without_support then EventRepository.get_events_without_support
  else if upcoming_only then EventRepository.get_upcoming_events now
  else if past_only then EventRepository.get_past_events now
  else if bool_decide (default 0 contract_id <> 0) then
    EventRepository.get_by_contract (default 0 contract_id)
  else if is_support current_user then
    EventRepository.get_by_support_contact (user_id current_user)
  else EventRepository.get_all 0 100.

Section WithJwt.
Variable jwt_decode : Token -> option Payload.

(** The source passes the integer [support_contact_id] where
    [AuthService.get_current_user] takes a token. *)
Definition assign_support_contact (event_id : Z) (support_contact_id : Z)
    (current_user : User) : Service (option Event) :=
  _ ← raise_if (negb (is_management current_user))
        (PermissionError "Only management can assign support contacts");
  support_user ←
    AuthService.get_current_user jwt_decode (TokenInt support_contact_id);
  _ ← raise_if
        (match support_user with
         | None => true
         | Some support_user => negb (is_support support_user)
         end)
        (ValueError "Invalid support contact ID");
  event ← EventRepository.get_by_id event_id;
  match event with
  | None =>
      raise (ValueError
               ("Event with ID " +:+ pretty event_id +:+ " not found"))
  | Some _ =>
      EventRepository.assign_support_contact event_id support_contact_id
  end.
End WithJwt.

End EventService.

(** ** app/utils/permissions.py *)

Module Permissions.
Section WithCredentials.
Variable jwt_decode : Token -> option Payload.
(** What [load_token()] returns: the stripped text of the token file, or
    [None] when there is no file. *)
Variable load_token : option string.

Definition get_current_user_with_session : Service (option User) :=
  match load_token with
  | None => mret None
  | Some token =>
      if bool_decide (token = "") then mret None
      else
        match AuthUtils.decode_access_token jwt_decode (TokenStr token) with
        | None => mret None
        | Some payload =>
            match payload_user_id payload with
            | None => mret None
            | Some user_id =>
                if bool_decide (user_id = 0) then mret None
                else fun db => (Ok (users db !! user_id), db)
            end
        end
  end.

(** The decorators: [func] is the decorated function, given the user
    they pass as [current_user]. *)
Definition require_auth {A} (func : User -> Service A) : Service A :=
  user ← get_current_user_with_session;
  match user with
  | None =>
      raise (PermissionError "Authentication required. Please login first.")
  | Some user => func user
  end.

Definition require_department {A} (departments : list Department)
    (func : User -> Service A) : Service A :=
  user ← get_current_user_with_session;
  match user with
  | None =>
      raise (PermissionError "Authentication required. Please login first.")
  | Some user =>
      _ ← raise_if (negb (bool_decide (user_department user ∈ departments)))
            (PermissionError
               ("This action requires one of the following departments: "
                +:+ String.concat ", " departments));
      func user
  end.

Definition require_permission {A} (action resource : string)
    (func : User -> Service A) : Service A :=
  user ← get_current_user_with_session;
  match user with
  | None =>
      raise (PermissionError "Authentication required. Please login first.")
  | Some user =>
      _ ← raise_if (negb (has_permission user action resource))
            (PermissionError
               ("You don't have permission to " +:+ action +:+ " "
                +:+ resource));
      func user
  end.
End WithCredentials.
End Permissions.

(** ** Sequences of calls on contracts *)

(** A call of the public surface that creates or changes a contract. *)
Inductive ContractOp :=
  | CreateContract (client_id total_amount amount_due commercial_id : Z)
                   (current_user : User)
  | UpdateContract (contract_id : Z) (current_user : User)
                   (total_amount amount_due : option Z) (signed : option bool)
  | SignContract (contract_id : Z) (current_user : User)
  | RecordPayment (contract_id amount_paid : Z) (current_user : User).

(** The database after a call, whether it returned or raised. *)
Definition exec (op : ContractOp) (db : Database) : Database :=
  match op with
  | CreateContract client_id total_amount amount_due commercial_id u =>
      (ContractService.create_contract client_id total_amount amount_due
         commercial_id u db).2
  | UpdateContract contract_id u total_amount amount_due signed =>
      (ContractService.update_contract contract_id u total_amount amount_due
         signed db).2
  | SignContract contract_id u =>
      (ContractService.sign_contract contract_id u db).2
  | RecordPayment contract_id amount_paid u =>
      (ContractService.update_payment contract_id amount_paid u db).2
  end.

Definition exec_all (ops : list ContractOp) (db : Database) : Database :=
  foldl (fun db op => exec op db) db ops.

(** [update_contract] called with [signed=False]. *)
Definition clears_signed (op : ContractOp) : bool :=
  match op with
  | UpdateContract _ _ _ _ (Some false) => true
  | _ => false
  end.

Definition is_signed (db : Database) (contract_id : Z) : bool :=
  match contracts db !! contract_id with
  | Some contract => contract_signed contract
  | None => false
  end.

(** ** Predicates of the statements *)

(** The caller may act on a record owned by [owner]: management, or the
    commercial who owns it. *)
Definition manages_or_owns (u : User) (owner : option Z) : Prop :=
  user_department u = MANAGEMENT
  \/ (user_department u = COMMERCIAL /\ owner = Some (user_id u)).

(** The caller may update an event whose support contact is [contact]:
    management, or the support user assigned to it. *)
Definition manages_or_supports (u : User) (contact : option Z) : Prop :=
  user_department u = MANAGEMENT
  \/ (user_department u = SUPPORT /\ contact = Some (user_id u)).

(** No other client has the e-mail address the update asks for, the
    empty address included. *)
Definition email_available (db : Database) (client : Client)
    (email : option string) : Prop :=
  forall e, email = Some e -> e <> client_email client ->
    forall id c, clients db !! id = Some c -> client_email c <> e.

(** No two clients share an e-mail address. *)
Definition unique_emails (db : Database) : Prop :=
  forall i j c d,
    clients db !! i = Some c -> clients db !! j = Some d ->
    client_email c = client_email d -> i = j.

(** The outcome of a call started on [db]: if it raised, the database is
    still [db]. *)
Definition stores_nothing_if_raised {A} (db : Database)
    (outcome : Result A * Database) : Prop :=
  match outcome with
  | (Ok _, _) => True
  | (Raised _, db') => db' = db
  end.

(** A department of the [Department] enum. *)
Definition known_department (u : User) : Prop :=
  user_department u ∈ departments.

(** ** A small database for the examples *)

Definition manager : User := mkUser 1 "manager@epic.test" MANAGEMENT true.
Definition seller : User := mkUser 2 "seller@epic.test" COMMERCIAL true.
Definition helper : User := mkUser 3 "helper@epic.test" SUPPORT true.
Definition other_seller : User := mkUser 4 "seller2@epic.test" COMMERCIAL true.
Definition other_helper : User := mkUser 5 "helper2@epic.test" SUPPORT true.

Definition acme : Client :=
  mkClient "John Doe" "john@acme.test" "+33600000000" "Acme" (Some 2).

(** Contract 1 is unsigned, contract 2 is signed; both belong to [seller]
    and have a total of 10000.00 of which 5000.00 is due. *)
Definition unsigned_contract : Contract :=
  mkContract 1000000 500000 false 1 (Some 2).
Definition signed_contract : Contract :=
  mkContract 1000000 500000 true 1 (Some 2).

Definition gala : Event :=
  mkEvent "Gala" 100 200 "Paris" 50 None 2 (Some 3).

Definition sample_db : Database :=
  mkDatabase
    (list_to_map [(1, manager); (2, seller); (3, helper);
                  (4, other_seller); (5, other_helper)])
    {[ 1 := acme ]}
    (list_to_map [(1, unsigned_contract); (2, signed_contract)])
    {[ 1 := gala ]}.
(** A second client, of [other_seller], for the examples on lists. *)
Definition globex : Client :=
  mkClient "Jane Roe" "jane@globex.test" "+33700000000" "Globex" (Some 4).

Definition two_clients_db : Database :=
  set_clients (list_to_map [(1, acme); (2, globex)]) sample_db.

(** A third client, stored with an empty e-mail address. *)
Definition blank : Client := mkClient "No Mail" "" "+33800000000" "Blank" None.

Definition blank_email_db : Database :=
  set_clients (list_to_map [(1, acme); (2, blank)]) sample_db.

(** A decoder that reads the user id off the token text, for the examples
    on the decorators. *)
Definition sample_jwt_decode (token : Token) : option Payload :=
  match token with
  | TokenStr "manager-token" => Some (mkPayload (Some 1))
  | TokenStr "seller-token" => Some (mkPayload (Some 2))
  | TokenStr "helper-token" => Some (mkPayload (Some 3))
  | _ => None
  end.

(** * Properties *)

(** ** The permission matrix *)

(** Case analysis on a key compared with a literal of a dictionary. *)
Ltac case_key :=
  match goal with
  | |- context [decide (?k = ?x)] =>
      destruct (decide (k = x)) as [<-|?]; simpl
  end.

Lemma has_permission_sound u a r :
  has_permission u a r = true ->
  (user_department u, a, r) ∈ section_4_1_table.
Proof.
  unfold has_permission, permissions. destruct u as [i e d act]; simpl.
  rewrite bool_decide_eq_true.
  repeat (rewrite ?lookup_insert, ?lookup_empty; try case_key); simpl;
    rewrite ?elem_of_cons, elem_of_nil; intros H;
    repeat (destruct H as [H|H]; [subst r|]); try destruct H;
    apply (bool_decide_unpack _); vm_compute; exact I.
Qed.

Lemma has_permission_complete u a r :
  (user_department u, a, r) ∈ section_4_1_table ->
  has_permission u a r = true.
Proof.
  unfold has_permission. destruct u as [i e d act]; simpl.
  unfold section_4_1_table. rewrite !elem_of_cons, elem_of_nil.
  intros H. repeat (destruct H as [H|H]; [inversion H; subst; vm_compute; reflexivity|]).
  destruct H.
Qed.

(** C1. [has_permission] grants exactly the (department, action,
    resource) triples of the table of section 4.1, over the 48 listed
    cases and beyond: an unknown department, action or resource is
    denied. *)
Theorem permission_matrix_exact (u : User) (a r : string) :
  has_permission u a r
  = bool_decide ((user_department u, a, r) ∈ section_4_1_table)
  /\ (user_department u ∉ departments \/ a ∉ actions \/ r ∉ resources ->
      has_permission u a r = false).
Proof.
  assert (Heq : has_permission u a r
          = bool_decide ((user_department u, a, r) ∈ section_4_1_table)).
  { destruct (has_permission u a r) eqn:Hp; symmetry.
    - apply bool_decide_eq_true, has_permission_sound, Hp.
    - apply bool_decide_eq_false. intros Hin.
      apply has_permission_complete in Hin. congruence. }
  split; [exact Heq|].
  intros Hunknown. destruct (has_permission u a r) eqn:Hp; [|reflexivity].
  exfalso. apply has_permission_sound in Hp.
  destruct u as [i e d act]; simpl in *.
  unfold section_4_1_table in Hp.
  rewrite !elem_of_cons, elem_of_nil in Hp.
  assert (Hknown : d ∈ departments /\ a ∈ actions /\ r ∈ resources).
  { repeat (destruct Hp as [Hp|Hp];
            [inversion Hp; subst; repeat split;
             apply (bool_decide_unpack _); vm_compute; exact I|]).
    destruct Hp. }
  tauto.
Qed.

Lemma permission_matrix_exact_witness :
  ("ACCOUNTING" ∉ departments)
  /\ has_permission (mkUser 9 "a@epic.test" "ACCOUNTING" true) "read" "client"
     = false.
Proof.
  split.
  - apply (bool_decide_unpack _); vm_compute; exact I.
  - apply (permission_matrix_exact
             (mkUser 9 "a@epic.test" "ACCOUNTING" true) "read" "client").
    left. apply (bool_decide_unpack _); vm_compute; exact I.
Defined.


(** ** Running a service *)

Lemma is_commercial_true u :
  user_department u = COMMERCIAL -> is_commercial u = true.
Proof. intros H. unfold is_commercial. by rewrite bool_decide_eq_true. Qed.

Lemma is_support_true u :
  user_department u = SUPPORT -> is_support u = true.
Proof. intros H. unfold is_support. by rewrite bool_decide_eq_true. Qed.

Lemma is_management_true u :
  user_department u = MANAGEMENT -> is_management u = true.
Proof. intros H. unfold is_management. by rewrite bool_decide_eq_true. Qed.

Lemma management_not_commercial u :
  user_department u = MANAGEMENT -> is_commercial u = false.
Proof.
  intros H. unfold is_commercial. rewrite H. by apply bool_decide_eq_false.
Qed.

Lemma management_not_support u :
  user_department u = MANAGEMENT -> is_support u = false.
Proof.
  intros H. unfold is_support. rewrite H. by apply bool_decide_eq_false.
Qed.

Lemma commercial_not_management u :
  user_department u = COMMERCIAL -> is_management u = false.
Proof.
  intros H. unfold is_management. rewrite H. by apply bool_decide_eq_false.
Qed.

Lemma commercial_not_support u :
  user_department u = COMMERCIAL -> is_support u = false.
Proof.
  intros H. unfold is_support. rewrite H. by apply bool_decide_eq_false.
Qed.

Lemma support_not_management u :
  user_department u = SUPPORT -> is_management u = false.
Proof.
  intros H. unfold is_management. rewrite H. by apply bool_decide_eq_false.
Qed.

(** The unique index on the address of a client. *)
Lemma email_kept_never_breaks table id old row :
  table !! id = Some old ->
  client_email row = client_email old ->
  clients_email_unique table id row = false.
Proof.
  intros Hold Hkept. unfold clients_email_unique.
  rewrite Hold. simpl. rewrite Hkept.
  by rewrite bool_decide_eq_true_2.
Qed.

Lemma email_free_never_breaks table id row :
  (forall j c, j <> id -> table !! j = Some c ->
     client_email c <> client_email row) ->
  clients_email_unique table id row = false.
Proof.
  intros Hfree. unfold clients_email_unique.
  apply andb_false_iff. right.
  destruct (existsb _ _) eqn:Hex; [|reflexivity].
  apply existsb_exists in Hex as ([j c] & Hin & Hrow). simpl in Hrow.
  apply list_elem_of_In, elem_of_map_to_list in Hin.
  apply andb_true_iff in Hrow as [Hj Hmail].
  apply bool_decide_eq_true in Hj, Hmail.
  by destruct (Hfree j c Hj Hin).
Qed.

Lemma email_taken_breaks table id row j c :
  client_email <$> table !! id <> Some (client_email row) ->
  j <> id -> table !! j = Some c -> client_email c = client_email row ->
  clients_email_unique table id row = true.
Proof.
  intros Hchanged Hj Hc Hmail. unfold clients_email_unique.
  apply andb_true_iff. split.
  - by rewrite bool_decide_eq_false_2.
  - apply existsb_exists. exists (j, c). split.
    + by apply list_elem_of_In, elem_of_map_to_list.
    + simpl. by rewrite !bool_decide_eq_true_2.
Qed.

(** The commit of a client either goes through or raises; neither is a
    permission failure. *)
Ltac commit_either Hget :=
  rewrite Hget; simpl; by destruct (clients_email_unique _ _ _).

(** Unfold the plumbing of a service down to the database. *)
Create HintDb service.
#[local] Hint Unfold mbind service_bind mret service_ret raise_if raise
  ContractRepository.get_by_id ContractRepository.sign_contract
  ContractRepository.update_payment ContractRepository.update
  ContractRepository.create
  ClientRepository.get_by_id ClientRepository.update ClientRepository.create
  EventRepository.get_by_id EventRepository.update
  EventRepository.assign_support_contact EventRepository.create
  BaseRepository.update BaseRepository.create BaseRepository.save
  BaseRepository.get_by_id no_unique_index : service.

Ltac unfold_service := repeat (progress autounfold with service).

(** The ownership test of the contract services lets the caller through. *)
Ltac pass_owner_check H :=
  destruct H as [H | [H ?]];
  [ rewrite (management_not_commercial _ H), (is_management_true _ H)
  | rewrite (is_commercial_true _ H), bool_decide_eq_false_2 by (by intros []) ];
  simpl.

(** ** Payments *)

(** C2, as the code has it. For an existing contract and a caller who
    manages or owns it, [update_payment] returns the contract with
    [amount_due] set to [max 0 (total_amount - amount_paid)], the argument
    being the whole amount paid so far, and stores it; the new balance is
    never negative and the call does not raise. *)
Theorem update_payment_sets_due_from_total
    (db : Database) (contract_id amount_paid : Z) (contract : Contract)
    (current_user : User) :
  contracts db !! contract_id = Some contract ->
  manages_or_owns current_user (contract_commercial_id contract) ->
  let paid := ContractModel.update_payment contract amount_paid in
  ContractService.update_payment contract_id amount_paid current_user db
  = (Ok (Some paid), set_contracts (<[contract_id := paid]> (contracts db)) db)
  /\ contract_amount_due paid
     = Z.max 0 (contract_total_amount contract - amount_paid)
  /\ 0 <= contract_amount_due paid.
Proof.
  intros Hget Hown paid. split; [|split].
  - unfold ContractService.update_payment. unfold_service.
    rewrite Hget. simpl. pass_owner_check Hown; by rewrite Hget.
  - reflexivity.
  - simpl. lia.
Qed.

(** The case of section 8: total 10000.00, due 5000.00, payment 20000.00
    leaves nothing due. *)
Lemma update_payment_sets_due_from_total_witness :
  contracts sample_db !! 1 = Some unsigned_contract
  /\ manages_or_owns seller (contract_commercial_id unsigned_contract)
  /\ ContractService.update_payment 1 2000000 seller sample_db
     = (Ok (Some (ContractModel.update_payment unsigned_contract 2000000)),
        set_contracts
          (<[1 := ContractModel.update_payment unsigned_contract 2000000]>
             (contracts sample_db)) sample_db)
  /\ contract_amount_due
       (ContractModel.update_payment unsigned_contract 2000000) = 0.
Proof.
  assert (Hget : contracts sample_db !! 1 = Some unsigned_contract)
    by (vm_compute; reflexivity).
  assert (Hown : manages_or_owns seller
                   (contract_commercial_id unsigned_contract))
    by (right; split; reflexivity).
  split; [exact Hget|]. split; [exact Hown|].
  destruct (update_payment_sets_due_from_total sample_db 1 2000000
              unsigned_contract seller Hget Hown) as (Hrun & Hdue & _).
  split; [exact Hrun|]. rewrite Hdue. reflexivity.
Defined.

(** C2 as stated fails: a payment of 1000.00 on a total of 10000.00 with
    5000.00 due leaves 9000.00 due, not 4000.00. *)
Lemma update_payment_not_due_minus_amount :
  exists paid db',
    ContractService.update_payment 1 100000 seller sample_db
    = (Ok (Some paid), db')
    /\ contracts db' !! 1 = Some paid
    /\ contract_amount_due paid = 900000
    /\ contract_amount_due paid
       <> Z.max 0 (contract_amount_due unsigned_contract - 100000).
Proof.
  eexists _, _. split; [vm_compute; reflexivity|].
  split; [vm_compute; reflexivity|].
  split; [reflexivity|]. vm_compute. discriminate.
Qed.

(** ** Creating events *)

(** C3, as the code has it. On an existing unsigned contract
    [create_event] always raises and leaves the database as it was: a
    caller whose department may create events (management, commercial)
    gets the domain-rule failure, whether or not the contract is theirs,
    and a caller without that permission is stopped before, by the
    permission check. *)
Theorem create_event_unsigned_contract
    (db : Database) (contract_id : Z) (contract : Contract)
    (name : string) (event_date_start event_date_end : Z) (location : string)
    (attendees : Z) (notes : option string) (current_user : User) :
  contracts db !! contract_id = Some contract ->
  contract_signed contract = false ->
  EventService.create_event name contract_id event_date_start event_date_end
    location attendees notes current_user db
  = (Raised
       (if has_permission current_user "create" "event"
        then ValueError "Cannot create event for unsigned contract"
        else PermissionError "You don't have permission to create events"),
     db).
Proof.
  intros Hget Hunsigned.
  unfold EventService.create_event. unfold_service.
  destruct (has_permission current_user "create" "event"); simpl;
    [|reflexivity].
  rewrite Hget, Hunsigned. reflexivity.
Qed.

(** A commercial who does not own the unsigned contract gets the
    domain-rule failure, not the ownership failure. *)
Lemma create_event_unsigned_contract_witness :
  contracts sample_db !! 1 = Some unsigned_contract
  /\ contract_signed unsigned_contract = false
  /\ EventService.create_event "Gala" 1 100 200 "Paris" 50 None other_seller
       sample_db
     = (Raised (ValueError "Cannot create event for unsigned contract"),
        sample_db).
Proof.
  assert (Hget : contracts sample_db !! 1 = Some unsigned_contract)
    by (vm_compute; reflexivity).
  split; [exact Hget|]. split; [reflexivity|].
  exact (create_event_unsigned_contract sample_db 1 unsigned_contract
           "Gala" 100 200 "Paris" 50 None other_seller Hget eq_refl).
Defined.

(** C3 as stated fails for a caller of the support department, who gets
    the permission failure. *)
Lemma create_event_unsigned_support_denied :
  contracts sample_db !! 1 = Some unsigned_contract
  /\ contract_signed unsigned_contract = false
  /\ EventService.create_event "Gala" 1 100 200 "Paris" 50 None helper
       sample_db
     = (Raised (PermissionError "You don't have permission to create events"),
        sample_db).
Proof.
  split; [vm_compute; reflexivity|]. split; [reflexivity|].
  vm_compute. reflexivity.
Qed.

(** ** Signing contracts *)

(** C4. Signing an existing unsigned contract by a caller who manages or
    owns it stores the contract with [signed] set; a second call on the
    same contract, by any caller who manages or owns it, raises
    "Contract is already signed" and changes nothing. *)
Theorem sign_contract_once
    (db : Database) (contract_id : Z) (contract : Contract)
    (current_user again : User) :
  contracts db !! contract_id = Some contract ->
  contract_signed contract = false ->
  manages_or_owns current_user (contract_commercial_id contract) ->
  manages_or_owns again (contract_commercial_id contract) ->
  let signed := ContractModel.sign_contract contract in
  let db' := set_contracts (<[contract_id := signed]> (contracts db)) db in
  ContractService.sign_contract contract_id current_user db
  = (Ok (Some signed), db')
  /\ contracts db' !! contract_id = Some signed
  /\ contract_signed signed = true
  /\ ContractService.sign_contract contract_id again db'
     = (Raised (ValueError "Contract is already signed"), db').
Proof.
  intros Hget Hunsigned Hown Hagain signed db'.
  assert (Hget' : contracts db' !! contract_id = Some signed)
    by apply lookup_insert_eq.
  split; [|split; [exact Hget'|split; [reflexivity|]]].
  - unfold ContractService.sign_contract. unfold_service.
    rewrite Hget. simpl. pass_owner_check Hown;
      rewrite Hunsigned; simpl; by rewrite Hget.
  - unfold ContractService.sign_contract. unfold_service.
    rewrite Hget'. simpl. pass_owner_check Hagain; reflexivity.
Qed.

Lemma sign_contract_once_witness :
  contracts sample_db !! 1 = Some unsigned_contract
  /\ ContractService.sign_contract 1 seller sample_db
     = (Ok (Some signed_contract),
        set_contracts (<[1 := signed_contract]> (contracts sample_db))
                      sample_db)
  /\ ContractService.sign_contract 1 manager
       (set_contracts (<[1 := signed_contract]> (contracts sample_db))
                      sample_db)
     = (Raised (ValueError "Contract is already signed"),
        set_contracts (<[1 := signed_contract]> (contracts sample_db))
                      sample_db).
Proof.
  assert (Hget : contracts sample_db !! 1 = Some unsigned_contract)
    by (vm_compute; reflexivity).
  assert (Hown : manages_or_owns seller
                   (contract_commercial_id unsigned_contract))
    by (right; split; reflexivity).
  assert (Hagain : manages_or_owns manager
                     (contract_commercial_id unsigned_contract))
    by (left; reflexivity).
  destruct (sign_contract_once sample_db 1 unsigned_contract seller manager
              Hget eq_refl Hown Hagain) as (Hfirst & _ & _ & Hsecond).
  split; [exact Hget|]. split; [exact Hfirst|exact Hsecond].
Defined.

(** ** The signed flag over sequences of calls *)

Lemma next_id_above {A} (table : gmap Z A) (k : Z) :
  is_Some (table !! k) -> k < next_id table.
Proof.
  unfold next_id.
  enough (k_le : is_Some (table !! k) ->
                 k <= map_fold (fun k _ acc => Z.max k acc) 0 table)
    by (intros Hk; specialize (k_le Hk); lia).
  revert k.
  apply (map_fold_weak_ind
           (fun r (m : gmap Z A) => forall k, is_Some (m !! k) -> k <= r)).
  - intros k [x Hx]. by rewrite lookup_empty in Hx.
  - intros i x m r Hfresh IH k Hk.
    rewrite lookup_insert in Hk. case_decide.
    + subst. lia.
    + specialize (IH k Hk). lia.
Qed.

Lemma next_id_fresh {A} (table : gmap Z A) : table !! next_id table = None.
Proof.
  destruct (table !! next_id table) eqn:Hget; [|reflexivity].
  assert (Hlt : next_id table < next_id table)
    by (apply next_id_above; eauto).
  lia.
Qed.

Lemma is_signed_insert db contract_id id contract :
  is_signed db contract_id = true ->
  (id = contract_id -> contract_signed contract = true) ->
  is_signed (set_contracts (<[id := contract]> (contracts db)) db)
            contract_id = true.
Proof.
  unfold is_signed. simpl. intros Hsigned Hsame.
  rewrite lookup_insert. case_decide; auto.
Qed.

(** Split on the ownership test of the contract services. *)
Ltac case_owner_check u :=
  destruct (is_commercial u);
  [ match goal with
    | |- context [bool_decide ?P] => destruct (bool_decide P)
    end
  | destruct (is_management u) ];
  simpl; try assumption.

Lemma exec_keeps_signed op db contract_id :
  clears_signed op = false ->
  is_signed db contract_id = true ->
  is_signed (exec op db) contract_id = true.
Proof.
  intros Hop Hsigned.
  destruct op as [client_id total due commercial_id u
                 | id u total due signed | id u | id paid u]; simpl.
  - unfold ContractService.create_contract. unfold_service.
    destruct (has_permission u "create" "contract"); simpl; [|assumption].
    destruct (clients db !! client_id); simpl; [|assumption].
    apply is_signed_insert; [assumption|]. intros Heq.
    unfold is_signed in Hsigned. rewrite <- Heq, next_id_fresh in Hsigned.
    discriminate.
  - unfold ContractService.update_contract. unfold_service.
    destruct (contracts db !! id) as [c|] eqn:Hget; simpl; [|assumption].
    case_owner_check u; rewrite Hget; simpl;
      (apply is_signed_insert; [assumption|]); intros ->;
      unfold is_signed in Hsigned; rewrite Hget in Hsigned;
      destruct signed as [[]|]; simpl in *; congruence.
  - unfold ContractService.sign_contract. unfold_service.
    destruct (contracts db !! id) as [c|] eqn:Hget; simpl; [|assumption].
    case_owner_check u; destruct (contract_signed c); simpl; try assumption;
      rewrite Hget; simpl; by apply is_signed_insert.
  - unfold ContractService.update_payment. unfold_service.
    destruct (contracts db !! id) as [c|] eqn:Hget; simpl; [|assumption].
    case_owner_check u; rewrite Hget; simpl;
      (apply is_signed_insert; [assumption|]); intros ->;
      unfold is_signed in Hsigned; by rewrite Hget in Hsigned.
Qed.

(** C5, as the code has it. Over any sequence of [create_contract],
    [update_contract], [sign_contract] and [update_payment] calls in which
    no [update_contract] passes [signed=False], a contract that is signed
    stays signed. *)
Theorem signed_kept_unless_cleared
    (ops : list ContractOp) (db : Database) (contract_id : Z) :
  Forall (fun op => clears_signed op = false) ops ->
  is_signed db contract_id = true ->
  is_signed (exec_all ops db) contract_id = true.
Proof.
  intros Hops. revert db.
  induction Hops as [|op ops Hop Hops IH]; intros db Hsigned; simpl.
  - exact Hsigned.
  - apply IH, exec_keeps_signed; assumption.
Qed.

Lemma signed_kept_unless_cleared_witness :
  is_signed sample_db 2 = true
  /\ is_signed
       (exec_all [ SignContract 2 seller;
                   RecordPayment 2 200000 seller;
                   UpdateContract 2 manager (Some 2000000) None (Some true);
                   CreateContract 1 300000 300000 2 manager;
                   UpdateContract 2 seller None (Some 0) None ]
                 sample_db) 2 = true.
Proof.
  split; [vm_compute; reflexivity|].
  apply signed_kept_unless_cleared.
  - repeat constructor.
  - vm_compute; reflexivity.
Defined.

(** C5 as stated fails: [update_contract] with [signed=False], called by
    management on the signed contract 2, stores it unsigned. *)
Lemma update_contract_clears_signed :
  contract_signed <$> contracts sample_db !! 2 = Some true
  /\ contract_signed
       <$> contracts
             (exec_all [UpdateContract 2 manager None None (Some false)]
                       sample_db) !! 2
     = Some false.
Proof. split; vm_compute; reflexivity. Qed.

(** ** Ownership on update *)

(** C6. A commercial caller passes the ownership test of [update_client]
    exactly when the client's [commercial_id] is the caller's id, and is
    otherwise refused with "You can only update your own clients", the
    database unchanged; a management caller is never refused. *)
Theorem update_client_ownership
    (db : Database) (client_id : Z) (client : Client) (current_user : User)
    (full_name email phone company_name : option string)
    (commercial_id : option Z) :
  clients db !! client_id = Some client ->
  let r := ClientService.update_client client_id current_user full_name
             email phone company_name commercial_id db in
  (user_department current_user = COMMERCIAL ->
     (is_permission_error r.1 = false
      <-> client_commercial_id client = Some (user_id current_user))
     /\ (client_commercial_id client <> Some (user_id current_user) ->
         r = (Raised (PermissionError "You can only update your own clients"),
              db)))
  /\ (user_department current_user = MANAGEMENT ->
      is_permission_error r.1 = false).
Proof.
  intros Hget r. subst r.
  unfold ClientService.update_client. unfold_service.
  rewrite Hget. simpl. split.
  - intros Hdept. rewrite (is_commercial_true _ Hdept).
    case_bool_decide as Hown; simpl.
    + split; [split; [discriminate|contradiction]|reflexivity].
    + split; [|contradiction]. split; [intros _; exact Hown|intros _].
      destruct email as [e|]; simpl; [|commit_either Hget].
      destruct (bool_decide (e <> "") && bool_decide (e <> client_email client));
        simpl; [|commit_either Hget].
      destruct (find _ _); simpl; [reflexivity|commit_either Hget].
  - intros Hdept.
    rewrite (management_not_commercial _ Hdept), (is_management_true _ Hdept).
    simpl.
    destruct email as [e|]; simpl; [|commit_either Hget].
    destruct (bool_decide (e <> "") && bool_decide (e <> client_email client));
      simpl; [|commit_either Hget].
    destruct (find _ _); simpl; [reflexivity|commit_either Hget].
Qed.

Lemma update_client_ownership_witness :
  clients sample_db !! 1 = Some acme
  /\ is_permission_error
       (ClientService.update_client 1 seller (Some "J. Doe") None None None
          None sample_db).1 = false
  /\ ClientService.update_client 1 other_seller (Some "J. Doe") None None
       None None sample_db
     = (Raised (PermissionError "You can only update your own clients"),
        sample_db)
  /\ is_permission_error
       (ClientService.update_client 1 manager (Some "J. Doe") None None None
          None sample_db).1 = false.
Proof.
  assert (Hget : clients sample_db !! 1 = Some acme)
    by (vm_compute; reflexivity).
  split; [exact Hget|]. split; [|split].
  - destruct (update_client_ownership sample_db 1 acme seller
                (Some "J. Doe") None None None None Hget) as [Hcom _].
    destruct (Hcom eq_refl) as [[_ Hpass] _]. apply Hpass. reflexivity.
  - destruct (update_client_ownership sample_db 1 acme other_seller
                (Some "J. Doe") None None None None Hget) as [Hcom _].
    destruct (Hcom eq_refl) as [_ Hdeny]. apply Hdeny. discriminate.
  - destruct (update_client_ownership sample_db 1 acme manager
                (Some "J. Doe") None None None None Hget) as [_ Hman].
    apply Hman. reflexivity.
Defined.

(** C7. A support caller's [update_event] goes through exactly when the
    event's [support_contact_id] is the caller's id, and is otherwise
    refused with "You can only update events assigned to you"; a
    management caller may update any event; a commercial caller is always
    refused. A refused call leaves the database unchanged. *)
Theorem update_event_ownership
    (db : Database) (event_id : Z) (event : Event) (current_user : User)
    (name : option string) (event_date_start event_date_end : option Z)
    (location : option string) (attendees : option Z)
    (notes : option string) :
  events db !! event_id = Some event ->
  let updated :=
    EventRepository.setattrs
      (mkEventKwargs name event_date_start event_date_end location attendees
                     notes) event in
  let accepted := (Ok (Some updated),
               set_events (<[event_id := updated]> (events db)) db) in
  let r := EventService.update_event event_id current_user name
             event_date_start event_date_end location attendees notes db in
  (user_department current_user = SUPPORT ->
     (event_support_contact_id event = Some (user_id current_user) ->
      r = accepted)
     /\ (event_support_contact_id event <> Some (user_id current_user) ->
         r = (Raised (PermissionError
                        "You can only update events assigned to you"), db))
     /\ (is_permission_error r.1 = false
         <-> event_support_contact_id event = Some (user_id current_user)))
  /\ (user_department current_user = MANAGEMENT -> r = accepted)
  /\ (user_department current_user = COMMERCIAL ->
      r = (Raised (PermissionError
                     "You don't have permission to update events"), db)).
Proof.
  intros Hget updated accepted r. subst r accepted updated.
  unfold EventService.update_event. unfold_service.
  rewrite Hget. simpl. split; [|split].
  - intros Hdept. rewrite (is_support_true _ Hdept).
    case_bool_decide as Hown; simpl.
    + split; [contradiction|]. split; [reflexivity|].
      split; [discriminate|contradiction].
    + rewrite Hget. simpl. split; [reflexivity|].
      split; [contradiction|]. split; [intros _; exact Hown|reflexivity].
  - intros Hdept.
    rewrite (management_not_support _ Hdept), (is_management_true _ Hdept).
    simpl. by rewrite Hget.
  - intros Hdept.
    rewrite (commercial_not_support _ Hdept),
            (commercial_not_management _ Hdept).
    reflexivity.
Qed.

Lemma update_event_ownership_witness :
  events sample_db !! 1 = Some gala
  /\ (EventService.update_event 1 helper None None None None (Some 250) None
        sample_db).1
     = Ok (Some (mkEvent "Gala" 100 200 "Paris" 250 None 2 (Some 3)))
  /\ EventService.update_event 1 other_helper None None None None (Some 250)
       None sample_db
     = (Raised (PermissionError "You can only update events assigned to you"),
        sample_db)
  /\ EventService.update_event 1 seller None None None None (Some 250) None
       sample_db
     = (Raised (PermissionError "You don't have permission to update events"),
        sample_db).
Proof.
  assert (Hget : events sample_db !! 1 = Some gala)
    by (vm_compute; reflexivity).
  split; [exact Hget|]. split; [|split].
  - destruct (update_event_ownership sample_db 1 gala helper
                None None None None (Some 250) None Hget) as [Hsup _].
    destruct (Hsup eq_refl) as [Hpass _]. rewrite Hpass; reflexivity.
  - destruct (update_event_ownership sample_db 1 gala other_helper
                None None None None (Some 250) None Hget) as [Hsup _].
    destruct (Hsup eq_refl) as (_ & Hdeny & _). apply Hdeny. discriminate.
  - destruct (update_event_ownership sample_db 1 gala seller
                None None None None (Some 250) None Hget) as (_ & _ & Hcom).
    apply Hcom. reflexivity.
Defined.

(** ** Assigning a support contact *)

Lemma assign_support_contact_management_only
    (jwt_decode : Token -> option Payload) (db : Database)
    (event_id support_contact_id : Z) (current_user : User) :
  user_department current_user <> MANAGEMENT ->
  EventService.assign_support_contact jwt_decode event_id support_contact_id
    current_user db
  = (Raised (PermissionError "Only management can assign support contacts"),
     db).
Proof.
  intros Hdept. unfold EventService.assign_support_contact. unfold_service.
  unfold is_management. by rewrite bool_decide_eq_false_2.
Qed.

(** C8, where the code departs from it. [assign_support_contact] looks the
    target up with [AuthService.get_current_user], which decodes its
    argument as a token; the integer id is no token, so for a management
    caller the call raises "Invalid support contact ID" whatever the
    target is, an existing active support user included. *)
Theorem assign_support_contact_rejects_every_target
    (jwt_decode : Token -> option Payload) (db : Database)
    (event_id support_contact_id : Z) (current_user : User) :
  rejects_non_string jwt_decode ->
  user_department current_user = MANAGEMENT ->
  EventService.assign_support_contact jwt_decode event_id support_contact_id
    current_user db
  = (Raised (ValueError "Invalid support contact ID"), db).
Proof.
  intros Hjwt Hdept.
  unfold EventService.assign_support_contact, AuthService.get_current_user,
    AuthUtils.decode_access_token.
  unfold_service.
  rewrite (is_management_true _ Hdept), Hjwt. reflexivity.
Qed.

(** Management assigns the active support user 3 to the existing event 1
    and is refused. *)
Lemma assign_support_contact_rejects_every_target_witness :
  rejects_non_string
    (fun token => match token with
                  | TokenStr _ => Some (mkPayload (Some 1))
                  | TokenInt _ => None
                  end)
  /\ users sample_db !! 3 = Some helper
  /\ is_support helper = true
  /\ user_is_active helper = true
  /\ is_Some (events sample_db !! 1)
  /\ EventService.assign_support_contact
       (fun token => match token with
                     | TokenStr _ => Some (mkPayload (Some 1))
                     | TokenInt _ => None
                     end)
       1 3 manager sample_db
     = (Raised (ValueError "Invalid support contact ID"), sample_db).
Proof.
  assert (Hjwt : rejects_non_string
                   (fun token => match token with
                                 | TokenStr _ => Some (mkPayload (Some 1))
                                 | TokenInt _ => None
                                 end))
    by (intros n; reflexivity).
  split; [exact Hjwt|].
  split; [vm_compute; reflexivity|].
  split; [vm_compute; reflexivity|].
  split; [reflexivity|].
  split; [vm_compute; eauto|].
  exact (assign_support_contact_rejects_every_target _ sample_db 1 3 manager
           Hjwt eq_refl).
Defined.

(** Were the lookup to resolve the id to its user (as the tests patch it
    to), the target's [is_active] flag would still not be read. *)
Lemma assign_support_contact_ignores_is_active
    (jwt_decode : Token -> option Payload) (db : Database)
    (event_id support_contact_id : Z) (event : Event)
    (current_user support_user : User) :
  jwt_decode (TokenInt support_contact_id)
  = Some (mkPayload (Some support_contact_id)) ->
  support_contact_id <> 0 ->
  users db !! support_contact_id = Some support_user ->
  user_department support_user = SUPPORT ->
  events db !! event_id = Some event ->
  user_department current_user = MANAGEMENT ->
  EventService.assign_support_contact jwt_decode event_id support_contact_id
    current_user db
  = (Ok (Some (EventModel.assign_support event support_contact_id)),
     set_events
       (<[event_id := EventModel.assign_support event support_contact_id]>
          (events db)) db).
Proof.
  intros Hjwt Hnz Huser Hsupport Hevent Hdept.
  unfold EventService.assign_support_contact, AuthService.get_current_user,
    AuthUtils.decode_access_token.
  unfold_service.
  rewrite (is_management_true _ Hdept), Hjwt. simpl.
  rewrite bool_decide_eq_false_2 by exact Hnz.
  rewrite Huser, (is_support_true _ Hsupport). simpl.
  rewrite Hevent. simpl. by rewrite Hevent.
Qed.

(** ** Event dates *)

(** C9, as the code has it. [create_event] does not compare the two
    dates: on a signed contract, for a caller who manages or owns it, the
    event is created with [event_date_start] and [event_date_end] as they
    were passed, in any order. *)
Theorem create_event_stores_dates_as_given
    (db : Database) (contract_id : Z) (contract : Contract)
    (name : string) (event_date_start event_date_end : Z) (location : string)
    (attendees : Z) (notes : option string) (current_user : User) :
  contracts db !! contract_id = Some contract ->
  contract_signed contract = true ->
  manages_or_owns current_user (contract_commercial_id contract) ->
  let event := mkEvent name event_date_start event_date_end location
                       attendees notes contract_id None in
  let id := next_id (events db) in
  EventService.create_event name contract_id event_date_start event_date_end
    location attendees notes current_user db
  = (Ok (id, event), set_events (<[id := event]> (events db)) db).
Proof.
  intros Hget Hsigned Hown event id.
  unfold EventService.create_event. unfold_service.
  assert (Hperm : has_permission current_user "create" "event" = true).
  { apply has_permission_complete.
    destruct Hown as [-> | [-> _]];
      apply (bool_decide_unpack _); vm_compute; exact I. }
  rewrite Hperm. simpl. rewrite Hget, Hsigned. simpl.
  destruct Hown as [Hdept | [Hdept Howner]].
  - rewrite (management_not_commercial _ Hdept). reflexivity.
  - rewrite (is_commercial_true _ Hdept).
    rewrite bool_decide_eq_false_2 by (by intros []). reflexivity.
Qed.

Lemma create_event_stores_dates_as_given_witness :
  contracts sample_db !! 2 = Some signed_contract
  /\ contract_signed signed_contract = true
  /\ manages_or_owns seller (contract_commercial_id signed_contract)
  /\ EventService.create_event "Dinner" 2 300 400 "Lyon" 20 None seller
       sample_db
     = (Ok (2, mkEvent "Dinner" 300 400 "Lyon" 20 None 2 None),
        set_events
          (<[2 := mkEvent "Dinner" 300 400 "Lyon" 20 None 2 None]>
             (events sample_db)) sample_db).
Proof.
  assert (Hget : contracts sample_db !! 2 = Some signed_contract)
    by (vm_compute; reflexivity).
  assert (Hown : manages_or_owns seller
                   (contract_commercial_id signed_contract))
    by (right; split; reflexivity).
  split; [exact Hget|]. split; [reflexivity|]. split; [exact Hown|].
  exact (create_event_stores_dates_as_given sample_db 2 signed_contract
           "Dinner" 300 400 "Lyon" 20 None seller Hget eq_refl Hown).
Defined.

(** C9 as stated fails: an event that ends before it starts is created. *)
Lemma create_event_accepts_end_before_start :
  exists id event db',
    EventService.create_event "Dinner" 2 400 300 "Lyon" 20 None manager
      sample_db
    = (Ok (id, event), db')
    /\ events db' !! id = Some event
    /\ ~ (event_date_start event < event_date_end event).
Proof.
  eexists _, _, _. split; [vm_compute; reflexivity|].
  split; [vm_compute; reflexivity|]. simpl. lia.
Qed.

(** ** The owner of a client on update *)

Lemma get_by_email_none db client e :
  email_available db client (Some e) ->
  e <> client_email client ->
  find (fun row : Z * Client => bool_decide (client_email row.2 = e))
       (map_to_list (clients db)) = None.
Proof.
  intros Havail Hnew.
  destruct (find _ _) as [[id c]|] eqn:Hfind; [|reflexivity].
  apply find_some in Hfind as [Hin Hmail]. simpl in Hmail.
  apply list_elem_of_In, elem_of_map_to_list in Hin.
  apply bool_decide_eq_true in Hmail.
  exfalso. exact (Havail e eq_refl Hnew id c Hin Hmail).
Qed.

(** When the address asked for is free, the commit goes through. *)
Lemma available_never_breaks db client_id client email row :
  clients db !! client_id = Some client ->
  email_available db client email ->
  client_email row = default (client_email client) email ->
  clients_email_unique (clients db) client_id row = false.
Proof.
  intros Hget Havail Hrow.
  destruct email as [e|]; simpl in Hrow;
    [|by apply (email_kept_never_breaks _ _ client)].
  destruct (decide (e = client_email client)) as [Hsame|Hnew].
  - apply (email_kept_never_breaks _ _ client); congruence.
  - apply email_free_never_breaks. intros j c _ Hc. rewrite Hrow.
    exact (Havail e eq_refl Hnew j c Hc).
Qed.

(** Run the e-mail test of [update_client] when the address is free. *)
Ltac pass_email_check Havail :=
  match goal with
  | |- context [match ?email with Some _ => _ | None => _ end] =>
      is_var email; destruct email as [e|]; simpl;
      [ destruct (decide (e = "")) as [->|Hne];
        [ simpl
        | rewrite (bool_decide_eq_true_2 (e <> "")) by exact Hne; simpl;
          case_bool_decide; simpl;
          [ match goal with
            | Hnew : e <> client_email _ |- _ =>
                rewrite (get_by_email_none _ _ _ Havail Hnew); simpl
            end
          | ] ]
      | ]
  end.

(** C10. When a commercial updates a client of their own, the
    [commercial_id] argument is dropped: the client keeps its owner, and
    takes the other fields asked for. For a management caller the argument
    becomes the owner. Whoever else calls, and whatever the outcome, the
    owner stored for the client is the one it had. (The fields are stored
    when the e-mail address asked for, if any, is free, the empty address
    included; otherwise the call raises and stores nothing.) *)
Theorem update_client_commercial_id_argument
    (db : Database) (client_id : Z) (client : Client) (current_user : User)
    (full_name email phone company_name : option string) (new_owner : Z) :
  clients db !! client_id = Some client ->
  let fields owner :=
    mkClient (default (client_full_name client) full_name)
             (default (client_email client) email)
             (default (client_phone client) phone)
             (default (client_company_name client) company_name)
             owner in
  let stored c := (Ok (Some c),
                   set_clients (<[client_id := c]> (clients db)) db) in
  let r := ClientService.update_client client_id current_user full_name
             email phone company_name (Some new_owner) db in
  (user_department current_user <> MANAGEMENT ->
   client_commercial_id <$> clients r.2 !! client_id
   = Some (client_commercial_id client))
  /\ (email_available db client email ->
      (user_department current_user = COMMERCIAL ->
       client_commercial_id client = Some (user_id current_user) ->
       r = stored (fields (client_commercial_id client)))
      /\ (user_department current_user = MANAGEMENT ->
          r = stored (fields (Some new_owner)))).
Proof.
  intros Hget fields stored r. subst r stored fields.
  unfold ClientService.update_client. unfold_service.
  rewrite Hget. simpl. split; [|intros Havail; split].
  - intros Hdept.
    assert (Hman : is_management current_user = false)
      by (unfold is_management; by rewrite bool_decide_eq_false_2).
    rewrite Hman. simpl.
    destruct (is_commercial current_user); simpl;
      [case_bool_decide; simpl|]; try (by rewrite Hget).
    destruct email as [e|]; simpl;
      [destruct (bool_decide (e <> "")
                 && bool_decide (e <> client_email client)); simpl;
       [destruct (find _ _); simpl|]|];
      rewrite ?Hget; simpl; try done;
      destruct (clients_email_unique _ _ _); simpl;
      by rewrite ?Hget, ?lookup_insert_eq.
  - intros Hdept Hown.
    rewrite (is_commercial_true _ Hdept), (commercial_not_management _ Hdept).
    rewrite bool_decide_eq_false_2 by (by intros []). simpl.
    pass_email_check Havail; rewrite Hget; simpl;
      by rewrite (available_never_breaks db client_id client _ _ Hget Havail).
  - intros Hdept.
    rewrite (management_not_commercial _ Hdept), (is_management_true _ Hdept).
    simpl.
    pass_email_check Havail; rewrite Hget; simpl;
      by rewrite (available_never_breaks db client_id client _ _ Hget Havail).
Qed.

Lemma update_client_commercial_id_argument_witness :
  clients sample_db !! 1 = Some acme
  /\ email_available sample_db acme (Some "jd@acme.test")
  /\ ClientService.update_client 1 seller None (Some "jd@acme.test")
       (Some "+33611111111") None (Some 4) sample_db
     = (Ok (Some (mkClient "John Doe" "jd@acme.test" "+33611111111" "Acme"
                           (Some 2))),
        set_clients
          (<[1 := mkClient "John Doe" "jd@acme.test" "+33611111111" "Acme"
                           (Some 2)]> (clients sample_db)) sample_db)
  /\ ClientService.update_client 1 manager None (Some "jd@acme.test")
       (Some "+33611111111") None (Some 4) sample_db
     = (Ok (Some (mkClient "John Doe" "jd@acme.test" "+33611111111" "Acme"
                           (Some 4))),
        set_clients
          (<[1 := mkClient "John Doe" "jd@acme.test" "+33611111111" "Acme"
                           (Some 4)]> (clients sample_db)) sample_db).
Proof.
  assert (Hget : clients sample_db !! 1 = Some acme)
    by (vm_compute; reflexivity).
  assert (Havail : email_available sample_db acme (Some "jd@acme.test")).
  { intros e He _ id c Hc. injection He as <-.
    unfold sample_db in Hc. simpl in Hc.
    apply lookup_singleton_Some in Hc as [_ <-]. discriminate. }
  split; [exact Hget|]. split; [exact Havail|]. split.
  - destruct (update_client_commercial_id_argument sample_db 1 acme seller
                None (Some "jd@acme.test") (Some "+33611111111") None 4
                Hget) as [_ Hfields].
    destruct (Hfields Havail) as [Hcom _]. exact (Hcom eq_refl eq_refl).
  - destruct (update_client_commercial_id_argument sample_db 1 acme manager
                None (Some "jd@acme.test") (Some "+33611111111") None 4
                Hget) as [_ Hfields].
    destruct (Hfields Havail) as [_ Hman]. exact (Hman eq_refl).
Defined.


(** * Further properties of the services *)

#[local] Hint Unfold BaseRepository.get_all BaseRepository.select_where
  BaseRepository.count
  ClientRepository.get_all ClientRepository.get_by_commercial
  ClientRepository.get_clients_without_commercial
  ClientRepository.assign_commercial ClientRepository.get_by_email
  ContractRepository.get_all ContractRepository.get_by_client
  ContractRepository.get_by_commercial
  ContractRepository.get_unsigned_contracts
  ContractRepository.get_unpaid_contracts
  EventRepository.get_all EventRepository.get_by_contract
  EventRepository.get_by_support_contact
  EventRepository.get_events_without_support
  EventRepository.get_upcoming_events EventRepository.get_past_events
  EventRepository.get_events_in_date_range : service.

(** ** Payments, continued *)

Lemma update_payment_run db contract_id amount_paid contract current_user :
  contracts db !! contract_id = Some contract ->
  manages_or_owns current_user (contract_commercial_id contract) ->
  ContractService.update_payment contract_id amount_paid current_user db
  = (Ok (Some (ContractModel.update_payment contract amount_paid)),
     set_contracts
       (<[contract_id := ContractModel.update_payment contract amount_paid]>
          (contracts db)) db).
Proof.
  intros Hget Hown.
  unfold ContractService.update_payment. unfold_service.
  rewrite Hget. simpl. pass_owner_check Hown; by rewrite Hget.
Qed.

(** X1. What [amount_paid] reads back after [update_payment] is the amount
    passed, capped at the total; for an amount between 0 and the total it
    is the amount itself, and the balance stays between 0 and the
    total. *)
Theorem amount_paid_after_update_payment (contract : Contract) (paid : Z) :
  0 <= paid <= contract_total_amount contract ->
  let updated := ContractModel.update_payment contract paid in
  ContractModel.amount_paid updated = paid
  /\ 0 <= contract_amount_due updated <= contract_total_amount updated
  /\ forall more, contract_total_amount contract <= more ->
       ContractModel.amount_paid
         (ContractModel.update_payment contract more)
       = contract_total_amount contract.
Proof.
  intros Hpaid updated. subst updated.
  unfold ContractModel.amount_paid, ContractModel.update_payment. simpl.
  split; [lia|]. split; [lia|]. intros more Hmore. lia.
Qed.

Lemma amount_paid_after_update_payment_witness :
  0 <= 400000 <= contract_total_amount unsigned_contract
  /\ ContractModel.amount_paid
       (ContractModel.update_payment unsigned_contract 400000) = 400000.
Proof.
  assert (Hpaid : 0 <= 400000 <= contract_total_amount unsigned_contract)
    by (simpl; lia).
  split; [exact Hpaid|].
  exact (proj1 (amount_paid_after_update_payment unsigned_contract 400000
                  Hpaid)).
Defined.

(** X2. Payments do not add up: after two [update_payment] calls on a
    contract the result and the database are those of the second call
    alone. *)
Theorem update_payment_last_wins
    (db : Database) (contract_id first second : Z) (contract : Contract)
    (u v : User) :
  contracts db !! contract_id = Some contract ->
  manages_or_owns u (contract_commercial_id contract) ->
  manages_or_owns v (contract_commercial_id contract) ->
  ContractService.update_payment contract_id second v
    (ContractService.update_payment contract_id first u db).2
  = ContractService.update_payment contract_id second v db.
Proof.
  intros Hget Hu Hv.
  rewrite (update_payment_run db contract_id first contract u Hget Hu).
  simpl.
  rewrite (update_payment_run db contract_id second contract v Hget Hv).
  erewrite update_payment_run; [|apply lookup_insert_eq|exact Hv].
  unfold set_contracts. simpl. rewrite insert_insert_eq. reflexivity.
Qed.

Lemma update_payment_last_wins_witness :
  contracts sample_db !! 1 = Some unsigned_contract
  /\ ContractService.update_payment 1 300000 manager
       (ContractService.update_payment 1 200000 seller sample_db).2
     = ContractService.update_payment 1 300000 manager sample_db.
Proof.
  assert (Hget : contracts sample_db !! 1 = Some unsigned_contract)
    by (vm_compute; reflexivity).
  split; [exact Hget|].
  apply (update_payment_last_wins sample_db 1 200000 300000
           unsigned_contract seller manager Hget).
  - right. split; reflexivity.
  - left. reflexivity.
Defined.

(** ** Contracts: ownership and missing rows *)

Lemma neither_is_false u :
  user_department u <> COMMERCIAL -> user_department u <> MANAGEMENT ->
  is_commercial u = false /\ is_management u = false.
Proof.
  intros Hc Hm. unfold is_commercial, is_management.
  by rewrite !bool_decide_eq_false_2.
Qed.

(** X3. On an existing contract, signed or not, a commercial who is not
    its [commercial_id] is refused by [update_contract], [sign_contract]
    and [update_payment], and so is every caller who is neither commercial
    nor management; the database is left as it was. *)
Theorem contract_services_refuse_strangers
    (db : Database) (contract_id : Z) (contract : Contract)
    (current_user : User) (total_amount amount_due : option Z)
    (signed : option bool) (amount_paid : Z) :
  contracts db !! contract_id = Some contract ->
  ~ manages_or_owns current_user (contract_commercial_id contract) ->
  let own := bool_decide (user_department current_user = COMMERCIAL) in
  ContractService.update_contract contract_id current_user total_amount
    amount_due signed db
  = (Raised (PermissionError
               (if own then "You can only update contracts for your clients"
                else "You don't have permission to update contracts")), db)
  /\ ContractService.sign_contract contract_id current_user db
     = (Raised (PermissionError
                  (if own then "You can only sign contracts for your clients"
                   else "You don't have permission to sign contracts")), db)
  /\ ContractService.update_payment contract_id amount_paid current_user db
     = (Raised (PermissionError
                  (if own
                   then "You can only update payments for your contracts"
                   else "You don't have permission to update payments")), db).
Proof.
  intros Hget Hstranger own. subst own.
  unfold ContractService.update_contract, ContractService.sign_contract,
    ContractService.update_payment.
  unfold_service. rewrite Hget. simpl.
  unfold is_commercial, is_management.
  case_bool_decide as Hc; simpl.
  - rewrite bool_decide_eq_true_2; [done|].
    intros Hown. apply Hstranger. right. by split.
  - rewrite (bool_decide_eq_false_2 (user_department current_user = MANAGEMENT));
      [done|].
    intros Hm. apply Hstranger. by left.
Qed.

Lemma contract_services_refuse_strangers_witness :
  contracts sample_db !! 2 = Some signed_contract
  /\ ~ manages_or_owns other_seller (contract_commercial_id signed_contract)
  /\ ~ manages_or_owns helper (contract_commercial_id signed_contract)
  /\ ContractService.sign_contract 2 other_seller sample_db
     = (Raised (PermissionError "You can only sign contracts for your clients"),
        sample_db)
  /\ ContractService.update_payment 2 100 helper sample_db
     = (Raised (PermissionError "You don't have permission to update payments"),
        sample_db).
Proof.
  assert (Hget : contracts sample_db !! 2 = Some signed_contract)
    by (vm_compute; reflexivity).
  assert (Hother : ~ manages_or_owns other_seller
                     (contract_commercial_id signed_contract))
    by (intros [H|[_ H]]; discriminate H).
  assert (Hhelper : ~ manages_or_owns helper
                      (contract_commercial_id signed_contract))
    by (intros [H|[H _]]; discriminate H).
  split; [exact Hget|]. split; [exact Hother|]. split; [exact Hhelper|].
  split.
  - exact (proj1 (proj2 (contract_services_refuse_strangers sample_db 2
                           signed_contract other_seller None None None 0
                           Hget Hother))).
  - exact (proj2 (proj2 (contract_services_refuse_strangers sample_db 2
                           signed_contract helper None None None 100
                           Hget Hhelper))).
Defined.

(** X4. The services that change a row look the row up first: on an id
    that is not in the table they raise "... with ID n not found" for
    every caller, whatever the caller's department and rights. *)
Theorem missing_row_reported_first
    (db : Database) (id : Z) (current_user : User)
    (name full_name email phone company_name location notes : option string)
    (commercial_id total_amount amount_due start_date end_date attendees
       : option Z)
    (signed : option bool) (amount_paid : Z) :
  (clients db !! id = None ->
   ClientService.update_client id current_user full_name email phone
     company_name commercial_id db
   = (Raised (ValueError ("Client with ID " +:+ pretty id +:+ " not found")),
      db))
  /\ (contracts db !! id = None ->
      let missing :=
        (Raised (ValueError
                   ("Contract with ID " +:+ pretty id +:+ " not found")), db) in
      ContractService.update_contract id current_user total_amount amount_due
        signed db = missing
      /\ ContractService.sign_contract id current_user db = missing
      /\ ContractService.update_payment id amount_paid current_user db
         = missing)
  /\ (events db !! id = None ->
      EventService.update_event id current_user name start_date end_date
        location attendees notes db
      = (Raised (ValueError ("Event with ID " +:+ pretty id +:+ " not found")),
         db)).
Proof.
  split; [|split]; intros Hnone.
  - unfold ClientService.update_client. unfold_service. by rewrite Hnone.
  - unfold ContractService.update_contract, ContractService.sign_contract,
      ContractService.update_payment.
    unfold_service. by rewrite Hnone.
  - unfold EventService.update_event. unfold_service. by rewrite Hnone.
Qed.

Lemma missing_row_reported_first_witness :
  contracts sample_db !! 7 = None
  /\ ContractService.sign_contract 7 helper sample_db
     = (Raised (ValueError "Contract with ID 7 not found"), sample_db).
Proof.
  assert (Hnone : contracts sample_db !! 7 = None)
    by (vm_compute; reflexivity).
  split; [exact Hnone|].
  destruct (missing_row_reported_first sample_db 7 helper None None None None
              None None None None None None None None None None 0)
    as (_ & Hcontract & _).
  destruct (Hcontract Hnone) as (_ & Hsign & _). exact Hsign.
Defined.

(** ** A call that raises stores nothing *)

(** Case analysis on every test a service makes before it raises. *)
Ltac raised_unchanged :=
  match goal with
  | |- stores_nothing_if_raised _ ?call =>
      let H := fresh "Hcall" in
      destruct call as [[?|?] ?] eqn:H; [exact I|]; simpl;
      repeat (progress autounfold with service in H);
      repeat (simpl in H; case_match); simplify_eq; reflexivity
  end.

(** X5. [create_client] and [update_client]: when the call raises, the
    database is the one it started from. *)
Theorem client_services_raise_unchanged
    (db : Database) (current_user : User) (client_id commercial_id : Z)
    (name email phone company : string)
    (full_name new_email new_phone company_name : option string)
    (new_owner : option Z) :
  stores_nothing_if_raised db
    (ClientService.create_client name email phone company commercial_id
    current_user db)
  /\ stores_nothing_if_raised db
    (ClientService.update_client client_id current_user full_name
    new_email new_phone company_name new_owner db).
Proof.
  split.
  - unfold ClientService.create_client. raised_unchanged.
  - unfold ClientService.update_client. raised_unchanged.
Qed.

(** X6. [create_contract], [update_contract], [sign_contract] and
    [update_payment]: when the call raises, the database is the one it
    started from. *)
Theorem contract_services_raise_unchanged
    (db : Database) (current_user : User)
    (contract_id client_id total due commercial_id amount_paid : Z)
    (total_amount amount_due : option Z) (signed : option bool) :
  stores_nothing_if_raised db
    (ContractService.create_contract client_id total due commercial_id
    current_user db)
  /\ stores_nothing_if_raised db
    (ContractService.update_contract contract_id current_user
    total_amount amount_due signed db)
  /\ stores_nothing_if_raised db
    (ContractService.sign_contract contract_id current_user db)
  /\ stores_nothing_if_raised db
    (ContractService.update_payment contract_id amount_paid
    current_user db).
Proof.
  repeat split.
  - unfold ContractService.create_contract. raised_unchanged.
  - unfold ContractService.update_contract. raised_unchanged.
  - unfold ContractService.sign_contract. raised_unchanged.
  - unfold ContractService.update_payment. raised_unchanged.
Qed.

(** X7. [create_event], [update_event] and [assign_support_contact]: when
    the call raises, the database is the one it started from. *)
Theorem event_services_raise_unchanged
    (jwt_decode : Token -> option Payload)
    (db : Database) (current_user : User)
    (event_id contract_id start_date end_date attendees support_contact_id : Z)
    (name location : string) (notes : option string)
    (new_name new_location new_notes : option string)
    (new_start new_end new_attendees : option Z) :
  stores_nothing_if_raised db
    (EventService.create_event name contract_id start_date end_date
    location attendees notes current_user db)
  /\ stores_nothing_if_raised db
    (EventService.update_event event_id current_user new_name new_start
    new_end new_location new_attendees new_notes db)
  /\ stores_nothing_if_raised db
    (EventService.assign_support_contact jwt_decode event_id
    support_contact_id current_user db).
Proof.
  repeat split.
  - unfold EventService.create_event. raised_unchanged.
  - unfold EventService.update_event. raised_unchanged.
  - unfold EventService.assign_support_contact,
      AuthService.get_current_user, AuthUtils.decode_access_token.
    raised_unchanged.
Qed.

(** ** Creating contracts and clients *)

Lemma create_contract_needs_management u :
  has_permission u "create" "contract" = true ->
  user_department u = MANAGEMENT.
Proof.
  intros Hp. apply has_permission_sound in Hp.
  unfold section_4_1_table in Hp.
  rewrite !elem_of_cons, elem_of_nil in Hp.
  repeat (destruct Hp as [Hp|Hp]; [by inversion Hp|]). destruct Hp.
Qed.

Lemma create_client_needs_commercial u :
  has_permission u "create" "client" = true ->
  user_department u = COMMERCIAL.
Proof.
  intros Hp. apply has_permission_sound in Hp.
  unfold section_4_1_table in Hp.
  rewrite !elem_of_cons, elem_of_nil in Hp.
  repeat (destruct Hp as [Hp|Hp]; [by inversion Hp|]). destruct Hp.
Qed.

(** The department [Hdept] gives the caller holds the permission. *)
Ltac permitted Hdept :=
  apply has_permission_complete; rewrite Hdept;
  apply (bool_decide_unpack _); vm_compute; exact I.

(** X8. [create_contract] is for management only: every other caller is
    refused, a commercial included. For management the client must exist;
    the contract is then stored unsigned under a new id, with the amounts
    and the commercial passed, and no contract already stored changes. *)
Theorem create_contract_outcome
    (db : Database) (client_id total_amount amount_due commercial_id : Z)
    (current_user : User) :
  let call := ContractService.create_contract client_id total_amount
                amount_due commercial_id current_user db in
  let contract := mkContract total_amount amount_due false client_id
                             (Some commercial_id) in
  let id := next_id (contracts db) in
  (user_department current_user <> MANAGEMENT ->
   call = (Raised (PermissionError
                     "You don't have permission to create contracts"), db))
  /\ (user_department current_user = MANAGEMENT ->
      clients db !! client_id = None ->
      call = (Raised (ValueError
                        ("Client with ID " +:+ pretty client_id
                         +:+ " not found")), db))
  /\ (user_department current_user = MANAGEMENT ->
      is_Some (clients db !! client_id) ->
      call = (Ok (id, contract),
              set_contracts (<[id := contract]> (contracts db)) db)
      /\ contracts db !! id = None
      /\ forall other c, contracts db !! other = Some c ->
           contracts call.2 !! other = Some c).
Proof.
  intros call contract id. subst call.
  unfold ContractService.create_contract. unfold_service.
  split; [|split].
  - intros Hdept.
    destruct (has_permission current_user "create" "contract") eqn:Hp;
      [|reflexivity].
    by apply create_contract_needs_management in Hp.
  - intros Hdept Hnone.
    assert (Hp : has_permission current_user "create" "contract" = true)
      by permitted Hdept.
    rewrite Hp. simpl. by rewrite Hnone.
  - intros Hdept [client Hclient].
    assert (Hp : has_permission current_user "create" "contract" = true)
      by permitted Hdept.
    rewrite Hp. simpl. rewrite Hclient. simpl.
    split; [reflexivity|]. split; [apply next_id_fresh|].
    intros other c Hother. rewrite lookup_insert_ne; [exact Hother|].
    intros Heq. subst other. subst id.
    by rewrite next_id_fresh in Hother.
Qed.

Lemma create_contract_outcome_witness :
  is_Some (clients sample_db !! 1)
  /\ ContractService.create_contract 1 5000000 5000000 2 manager sample_db
     = (Ok (3, mkContract 5000000 5000000 false 1 (Some 2)),
        set_contracts
          (<[3 := mkContract 5000000 5000000 false 1 (Some 2)]>
             (contracts sample_db)) sample_db)
  /\ ContractService.create_contract 1 5000000 5000000 2 seller sample_db
     = (Raised (PermissionError
                  "You don't have permission to create contracts"),
        sample_db).
Proof.
  assert (Hclient : is_Some (clients sample_db !! 1))
    by (vm_compute; eauto).
  split; [exact Hclient|]. split.
  - destruct (create_contract_outcome sample_db 1 5000000 5000000 2 manager)
      as (_ & _ & Hok).
    destruct (Hok eq_refl Hclient) as [Hcall _]. exact Hcall.
  - destruct (create_contract_outcome sample_db 1 5000000 5000000 2 seller)
      as (Hdenied & _).
    apply Hdenied. discriminate.
Defined.

Lemma find_email_taken db e :
  (exists id c, clients db !! id = Some c /\ client_email c = e) ->
  is_Some (find (fun row : Z * Client => bool_decide (client_email row.2 = e))
                (map_to_list (clients db))).
Proof.
  intros (id & c & Hc & He).
  destruct (find _ _) eqn:Hfind; [eauto|].
  apply elem_of_map_to_list, list_elem_of_In in Hc.
  pose proof (find_none _ _ Hfind _ Hc) as Hno. simpl in Hno.
  by rewrite bool_decide_eq_true_2 in Hno.
Qed.

Lemma find_email_free db e :
  (forall id c, clients db !! id = Some c -> client_email c <> e) <->
  find (fun row : Z * Client => bool_decide (client_email row.2 = e))
       (map_to_list (clients db)) = None.
Proof.
  split.
  - intros Hfree. destruct (find _ _) as [[id c]|] eqn:Hfind; [|reflexivity].
    apply find_some in Hfind as [Hin Hmail]. simpl in Hmail.
    apply list_elem_of_In, elem_of_map_to_list in Hin.
    apply bool_decide_eq_true in Hmail. by destruct (Hfree id c Hin).
  - intros Hfind id c Hc He.
    assert (Hsome : is_Some (find (fun row : Z * Client =>
                                     bool_decide (client_email row.2 = e))
                                  (map_to_list (clients db))))
      by (apply find_email_taken; eauto).
    rewrite Hfind in Hsome. by destruct Hsome.
Qed.

Lemma unique_emails_insert db id c :
  unique_emails db ->
  (forall j d, j <> id -> clients db !! j = Some d ->
     client_email d <> client_email c) ->
  unique_emails (set_clients (<[id := c]> (clients db)) db).
Proof.
  intros Huniq Hfresh i j ci cj. simpl.
  rewrite !lookup_insert. repeat case_decide; intros; simplify_eq; try done.
  - exfalso. eapply Hfresh; eauto.
  - exfalso. eapply Hfresh; eauto.
  - eapply Huniq; eauto.
Qed.

(** X9. [create_client] is for commercials only. An address that a stored
    client already has is refused with "already exists"; otherwise the
    client is stored under a new id with the [commercial_id] passed as its
    owner. Either way, if no two clients shared an address before the
    call, none do after it. *)
Theorem create_client_outcome
    (db : Database) (full_name email phone company_name : string)
    (commercial_id : Z) (current_user : User) :
  let call := ClientService.create_client full_name email phone company_name
                commercial_id current_user db in
  let client := mkClient full_name email phone company_name
                         (Some commercial_id) in
  let id := next_id (clients db) in
  (user_department current_user <> COMMERCIAL ->
   call = (Raised (PermissionError
                     "You don't have permission to create clients"), db))
  /\ (user_department current_user = COMMERCIAL ->
      (exists i c, clients db !! i = Some c /\ client_email c = email) ->
      call = (Raised (ValueError ("Client with email " +:+ email
                                  +:+ " already exists")), db))
  /\ (user_department current_user = COMMERCIAL ->
      (forall i c, clients db !! i = Some c -> client_email c <> email) ->
      call = (Ok (id, client), set_clients (<[id := client]> (clients db)) db))
  /\ (unique_emails db -> unique_emails call.2).
Proof.
  intros call client id. subst call.
  unfold ClientService.create_client. unfold_service.
  split; [|split; [|split]].
  - intros Hdept.
    destruct (has_permission current_user "create" "client") eqn:Hp;
      [|reflexivity].
    by apply create_client_needs_commercial in Hp.
  - intros Hdept Htaken.
    assert (Hp : has_permission current_user "create" "client" = true)
      by permitted Hdept.
    rewrite Hp. simpl.
    destruct (find_email_taken db email Htaken) as [row Hrow].
    rewrite Hrow. simpl. rewrite ?bool_decide_eq_true_2 by eauto. reflexivity.
  - intros Hdept Hfree.
    assert (Hp : has_permission current_user "create" "client" = true)
      by permitted Hdept.
    rewrite Hp. simpl.
    rewrite (proj1 (find_email_free db email) Hfree). simpl.
    rewrite ?bool_decide_eq_false_2 by (by intros [? ?]). simpl.
    rewrite email_free_never_breaks; [reflexivity|].
    intros j c _ Hc. exact (Hfree j c Hc).
  - intros Huniq.
    destruct (has_permission current_user "create" "client"); simpl;
      [|exact Huniq].
    destruct (find _ _) as [row|] eqn:Hfind; simpl.
    + rewrite ?bool_decide_eq_true_2 by eauto. exact Huniq.
    + rewrite ?bool_decide_eq_false_2 by (by intros [? ?]). simpl.
      destruct (clients_email_unique _ _ _); simpl; [exact Huniq|].
      apply unique_emails_insert; [exact Huniq|].
      intros j d _ Hd. simpl.
      exact (proj2 (find_email_free db email) Hfind j d Hd).
Qed.

Lemma create_client_outcome_witness :
  (exists i c, clients sample_db !! i = Some c
               /\ client_email c = "john@acme.test")
  /\ ClientService.create_client "Johnny" "john@acme.test" "+33" "Acme 2" 2
       seller sample_db
     = (Raised (ValueError
                  "Client with email john@acme.test already exists"),
        sample_db)
  /\ ClientService.create_client "Johnny" "john@acme.test" "+33" "Acme 2" 1
       manager sample_db
     = (Raised (PermissionError
                  "You don't have permission to create clients"),
        sample_db).
Proof.
  assert (Htaken : exists i c, clients sample_db !! i = Some c
                               /\ client_email c = "john@acme.test").
  { exists 1, acme. split; [vm_compute; reflexivity|reflexivity]. }
  split; [exact Htaken|]. split.
  - destruct (create_client_outcome sample_db "Johnny" "john@acme.test"
                "+33" "Acme 2" 2 seller) as (_ & Hdup & _).
    exact (Hdup eq_refl Htaken).
  - destruct (create_client_outcome sample_db "Johnny" "john@acme.test"
                "+33" "Acme 2" 1 manager) as (Hdenied & _).
    apply Hdenied. discriminate.
Defined.

(** X10. [update_client] keeps addresses distinct as long as the address
    asked for is not the empty string: if no two clients shared an address
    before the call, none do after it. *)
Theorem update_client_keeps_unique_emails
    (db : Database) (client_id : Z) (current_user : User)
    (full_name email phone company_name : option string)
    (commercial_id : option Z) :
  unique_emails db ->
  email <> Some "" ->
  unique_emails
    (ClientService.update_client client_id current_user full_name email
       phone company_name commercial_id db).2.
Proof.
  intros Huniq Hnonempty.
  unfold ClientService.update_client. unfold_service.
  destruct (clients db !! client_id) as [client|] eqn:Hget; simpl;
    [|exact Huniq].
  assert (Hsame : forall update_data,
            kw_email update_data = None
            \/ kw_email update_data = Some (client_email client) ->
            unique_emails
              (set_clients
                 (<[client_id := ClientRepository.setattrs update_data client]>
                    (clients db)) db)).
  { intros update_data Hmail. apply unique_emails_insert; [exact Huniq|].
    intros j d Hj Hd. simpl.
    assert (Heq : default (client_email client) (kw_email update_data)
                  = client_email client)
      by (destruct Hmail as [-> | ->]; reflexivity).
    rewrite Heq. intros Hmaileq. apply Hj.
    exact (Huniq j client_id d client Hd Hget Hmaileq). }
  destruct (is_commercial current_user); simpl;
    [case_bool_decide; simpl|destruct (is_management current_user); simpl];
    try exact Huniq.
  all: destruct email as [e|]; simpl;
    [|rewrite Hget; simpl;
      destruct (clients_email_unique _ _ _); simpl; [exact Huniq|];
      apply Hsame; by left].
  all: destruct (decide (e = "")) as [->|Hne]; [congruence|].
  all: rewrite (bool_decide_eq_true_2 (e <> "")) by exact Hne; simpl.
  all: case_bool_decide as Hnew; simpl;
    [|rewrite Hget; simpl;
      destruct (clients_email_unique _ _ _); simpl; [exact Huniq|];
      apply Hsame; right; simpl;
      f_equal; by destruct (decide (e = client_email client))].
  all: destruct (find _ _) as [row|] eqn:Hfind; simpl;
    [rewrite ?bool_decide_eq_true_2 by eauto; exact Huniq|].
  all: rewrite ?bool_decide_eq_false_2 by (by intros [? ?]); simpl.
  all: rewrite Hget; simpl.
  all: destruct (clients_email_unique _ _ _); simpl; [exact Huniq|].
  all: apply unique_emails_insert; [exact Huniq|].
  all: intros j d _ Hd; simpl.
  all: exact (proj2 (find_email_free db e) Hfind j d Hd).
Qed.

Lemma update_client_keeps_unique_emails_witness :
  unique_emails two_clients_db
  /\ unique_emails
       (ClientService.update_client 1 seller None (Some "jd@acme.test") None
          None None two_clients_db).2.
Proof.
  assert (Huniq : unique_emails two_clients_db).
  { intros i j c d Hc Hd. unfold two_clients_db in *. simpl in *.
    rewrite !lookup_insert in Hc, Hd. rewrite lookup_empty in Hc, Hd.
    repeat case_decide; simplify_eq; done. }
  split; [exact Huniq|].
  apply update_client_keeps_unique_emails; [exact Huniq|discriminate].
Defined.


(** X11. The uniqueness test of [update_client] skips the empty string
    ([if email and ...]), so for a caller who manages or owns the client
    an empty address goes to the commit untested. If another client has
    the empty address the commit raises [IntegrityError], not the
    service's "already in use", and nothing is stored; if no other client
    has it, it is stored. An address that is not empty and that another
    client has is refused by the service with "already in use". *)
Theorem update_client_empty_email_unchecked
    (db : Database) (client_id : Z) (client : Client) (current_user : User)
    (full_name phone company_name : option string) :
  clients db !! client_id = Some client ->
  manages_or_owns current_user (client_commercial_id client) ->
  let updated :=
    mkClient (default (client_full_name client) full_name) ""
             (default (client_phone client) phone)
             (default (client_company_name client) company_name)
             (client_commercial_id client) in
  let call email :=
    ClientService.update_client client_id current_user full_name (Some email)
      phone company_name None db in
  (client_email client <> "" ->
   (exists j c, j <> client_id /\ clients db !! j = Some c
                /\ client_email c = "") ->
   call "" = (Raised IntegrityError, db))
  /\ ((forall j c, j <> client_id -> clients db !! j = Some c ->
                   client_email c <> "") ->
      call "" = (Ok (Some updated),
                 set_clients (<[client_id := updated]> (clients db)) db))
  /\ (forall e, e <> "" -> e <> client_email client ->
      (exists j c, clients db !! j = Some c /\ client_email c = e) ->
      call e = (Raised (ValueError ("Email " +:+ e +:+ " is already in use")),
                db)).
Proof.
  intros Hget Hown updated call. subst call.
  unfold ClientService.update_client. unfold_service.
  rewrite Hget. simpl. split; [|split].
  - intros Hmail (j & c & Hj & Hc & Hblank).
    pass_owner_check Hown; rewrite Hget; simpl.
    all: rewrite (email_taken_breaks (clients db) client_id _ j c);
      [reflexivity| |exact Hj|exact Hc|exact Hblank].
    all: rewrite Hget; simpl; congruence.
  - intros Hfree.
    pass_owner_check Hown; rewrite Hget; simpl.
    all: rewrite email_free_never_breaks; [reflexivity|exact Hfree].
  - intros e Hne Hnew Htaken.
    destruct (find_email_taken db e Htaken) as [row Hrow].
    pass_owner_check Hown.
    all: rewrite (bool_decide_eq_true_2 (e <> "")) by exact Hne.
    all: rewrite (bool_decide_eq_true_2 (e <> client_email client))
      by exact Hnew.
    all: simpl; by rewrite Hrow.
Qed.

(** Client 2 has the empty address; client 1 cannot take it. *)
Lemma update_client_empty_email_unchecked_witness :
  clients blank_email_db !! 1 = Some acme
  /\ manages_or_owns seller (client_commercial_id acme)
  /\ client_email acme <> ""
  /\ (exists j c, j <> 1 /\ clients blank_email_db !! j = Some c
                  /\ client_email c = "")
  /\ ClientService.update_client 1 seller None (Some "") None None None
       blank_email_db
     = (Raised IntegrityError, blank_email_db).
Proof.
  assert (Hget : clients blank_email_db !! 1 = Some acme)
    by (vm_compute; reflexivity).
  assert (Hown : manages_or_owns seller (client_commercial_id acme))
    by (right; split; reflexivity).
  assert (Hmail : client_email acme <> "") by discriminate.
  assert (Hblank : exists j c, j <> 1 /\ clients blank_email_db !! j = Some c
                               /\ client_email c = "").
  { exists 2, blank. split; [lia|]. split; [vm_compute; reflexivity|].
    reflexivity. }
  split; [exact Hget|]. split; [exact Hown|]. split; [exact Hmail|].
  split; [exact Hblank|].
  exact (proj1 (update_client_empty_email_unchecked blank_email_db 1 acme
                  seller None None None Hget Hown) Hmail Hblank).
Defined.

(** ** Creating events, continued *)

Lemma create_event_needs_department u :
  has_permission u "create" "event" = true ->
  user_department u = MANAGEMENT \/ user_department u = COMMERCIAL.
Proof.
  intros Hp. apply has_permission_sound in Hp.
  unfold section_4_1_table in Hp.
  rewrite !elem_of_cons, elem_of_nil in Hp.
  repeat (destruct Hp as [Hp|Hp]; [inversion Hp; auto|]). destruct Hp.
Qed.

(** X12. [create_event] tests the permission before it looks the contract
    up: a caller who is neither management nor commercial is refused on
    any contract id, stored or not. On a signed contract a commercial who
    is not its [commercial_id] is refused with "You can only create events
    for your contracts". A permitted caller on an id that is not stored
    gets "not found". *)
Theorem create_event_refusals
    (db : Database) (contract_id : Z) (name : string)
    (event_date_start event_date_end : Z) (location : string)
    (attendees : Z) (notes : option string) (current_user : User) :
  let call := EventService.create_event name contract_id event_date_start
                event_date_end location attendees notes current_user db in
  (user_department current_user <> MANAGEMENT ->
   user_department current_user <> COMMERCIAL ->
   call = (Raised (PermissionError
                     "You don't have permission to create events"), db))
  /\ (forall contract,
        contracts db !! contract_id = Some contract ->
        contract_signed contract = true ->
        user_department current_user = COMMERCIAL ->
        contract_commercial_id contract <> Some (user_id current_user) ->
        call = (Raised (PermissionError
                          "You can only create events for your contracts"),
                db))
  /\ (user_department current_user = MANAGEMENT
      \/ user_department current_user = COMMERCIAL ->
      contracts db !! contract_id = None ->
      call = (Raised (ValueError ("Contract with ID " +:+ pretty contract_id
                                  +:+ " not found")), db)).
Proof.
  intros call. subst call.
  unfold EventService.create_event. unfold_service.
  split; [|split].
  - intros Hm Hc.
    destruct (has_permission current_user "create" "event") eqn:Hp;
      [|reflexivity].
    apply create_event_needs_department in Hp. tauto.
  - intros contract Hget Hsigned Hdept Hstranger.
    assert (Hp : has_permission current_user "create" "event" = true)
      by permitted Hdept.
    rewrite Hp. simpl. rewrite Hget, Hsigned. simpl.
    rewrite (is_commercial_true _ Hdept).
    by rewrite bool_decide_eq_true_2.
  - intros Hdept Hnone.
    assert (Hp : has_permission current_user "create" "event" = true)
      by (destruct Hdept as [Hdept|Hdept]; permitted Hdept).
    rewrite Hp. simpl. by rewrite Hnone.
Qed.

Lemma create_event_refusals_witness :
  contracts sample_db !! 2 = Some signed_contract
  /\ contract_commercial_id signed_contract <> Some (user_id other_seller)
  /\ EventService.create_event "Dinner" 2 300 400 "Lyon" 20 None other_seller
       sample_db
     = (Raised (PermissionError
                  "You can only create events for your contracts"),
        sample_db)
  /\ EventService.create_event "Dinner" 9 300 400 "Lyon" 20 None helper
       sample_db
     = (Raised (PermissionError "You don't have permission to create events"),
        sample_db).
Proof.
  assert (Hget : contracts sample_db !! 2 = Some signed_contract)
    by (vm_compute; reflexivity).
  assert (Hstranger : contract_commercial_id signed_contract
                      <> Some (user_id other_seller)) by discriminate.
  split; [exact Hget|]. split; [exact Hstranger|]. split.
  - destruct (create_event_refusals sample_db 2 "Dinner" 300 400 "Lyon" 20
                None other_seller) as (_ & Hown & _).
    exact (Hown signed_contract Hget eq_refl eq_refl Hstranger).
  - destruct (create_event_refusals sample_db 9 "Dinner" 300 400 "Lyon" 20
                None helper) as (Hperm & _).
    apply Hperm; discriminate.
Defined.

(** ** From a new contract to its first event *)

Lemma sign_contract_run db contract_id contract current_user :
  contracts db !! contract_id = Some contract ->
  contract_signed contract = false ->
  manages_or_owns current_user (contract_commercial_id contract) ->
  ContractService.sign_contract contract_id current_user db
  = (Ok (Some (ContractModel.sign_contract contract)),
     set_contracts
       (<[contract_id := ContractModel.sign_contract contract]>
          (contracts db)) db).
Proof.
  intros Hget Hunsigned Hown.
  unfold ContractService.sign_contract. unfold_service.
  rewrite Hget. simpl.
  pass_owner_check Hown; rewrite Hunsigned; simpl; by rewrite Hget.
Qed.

Lemma create_event_run db contract_id contract name event_date_start
    event_date_end location attendees notes current_user :
  contracts db !! contract_id = Some contract ->
  contract_signed contract = true ->
  manages_or_owns current_user (contract_commercial_id contract) ->
  EventService.create_event name contract_id event_date_start event_date_end
    location attendees notes current_user db
  = (Ok (next_id (events db),
         mkEvent name event_date_start event_date_end location attendees
                 notes contract_id None),
     set_events
       (<[next_id (events db) :=
            mkEvent name event_date_start event_date_end location attendees
                    notes contract_id None]> (events db)) db).
Proof.
  intros Hget Hsigned Hown.
  unfold EventService.create_event. unfold_service.
  assert (Hperm : has_permission current_user "create" "event" = true)
    by (destruct Hown as [Hdept | [Hdept _]]; permitted Hdept).
  rewrite Hperm. simpl. rewrite Hget, Hsigned. simpl.
  destruct Hown as [Hdept | [Hdept Howner]].
  - rewrite (management_not_commercial _ Hdept). reflexivity.
  - rewrite (is_commercial_true _ Hdept).
    rewrite bool_decide_eq_false_2 by (by intros []). reflexivity.
Qed.

(** X13. The path from a contract to an event. Management creates a
    contract for a commercial; that commercial cannot create an event on
    it yet ("unsigned contract"); once the commercial has signed it, the
    same [create_event] call stores the event, without a support
    contact. *)
Theorem contract_to_event_workflow
    (db : Database) (client_id total_amount amount_due : Z)
    (management commercial : User) (name : string)
    (event_date_start event_date_end : Z) (location : string)
    (attendees : Z) (notes : option string) :
  user_department management = MANAGEMENT ->
  user_department commercial = COMMERCIAL ->
  is_Some (clients db !! client_id) ->
  let id := next_id (contracts db) in
  let created :=
    (ContractService.create_contract client_id total_amount amount_due
       (user_id commercial) management db).2 in
  let signed := (ContractService.sign_contract id commercial created).2 in
  let event := mkEvent name event_date_start event_date_end location
                       attendees notes id None in
  EventService.create_event name id event_date_start event_date_end location
    attendees notes commercial created
  = (Raised (ValueError "Cannot create event for unsigned contract"), created)
  /\ is_signed signed id = true
  /\ EventService.create_event name id event_date_start event_date_end
       location attendees notes commercial signed
     = (Ok (next_id (events db), event),
        set_events (<[next_id (events db) := event]> (events db)) signed).
Proof.
  intros Hm Hc [client Hclient] id created signed event.
  assert (Hperm : has_permission management "create" "contract" = true)
    by permitted Hm.
  set (contract := mkContract total_amount amount_due false client_id
                              (Some (user_id commercial))).
  assert (Hcreated : created
                     = set_contracts (<[id := contract]> (contracts db)) db).
  { subst created. unfold ContractService.create_contract. unfold_service.
    rewrite Hperm. simpl. rewrite Hclient. reflexivity. }
  assert (Hget : contracts created !! id = Some contract)
    by (rewrite Hcreated; apply lookup_insert_eq).
  assert (Hown : manages_or_owns commercial (contract_commercial_id contract))
    by (right; split; [exact Hc|reflexivity]).
  assert (Hsigned : signed
                    = set_contracts
                        (<[id := ContractModel.sign_contract contract]>
                           (contracts created)) created).
  { subst signed.
    by rewrite (sign_contract_run created id contract commercial Hget
                  eq_refl Hown). }
  assert (Hget' : contracts signed !! id
                  = Some (ContractModel.sign_contract contract))
    by (rewrite Hsigned; apply lookup_insert_eq).
  split; [|split].
  - assert (Hp : has_permission commercial "create" "event" = true)
      by permitted Hc.
    unfold EventService.create_event. unfold_service.
    rewrite Hp. simpl. by rewrite Hget.
  - unfold is_signed. by rewrite Hget'.
  - rewrite (create_event_run signed id (ContractModel.sign_contract contract)
               name event_date_start event_date_end location attendees notes
               commercial Hget' eq_refl Hown).
    rewrite Hsigned, Hcreated. reflexivity.
Qed.

Lemma contract_to_event_workflow_witness :
  is_Some (clients sample_db !! 1)
  /\ EventService.create_event "Launch" 3 500 600 "Nice" 80 None seller
       (ContractService.sign_contract 3 seller
          (ContractService.create_contract 1 5000000 5000000 2 manager
             sample_db).2).2
     = (Ok (2, mkEvent "Launch" 500 600 "Nice" 80 None 3 None),
        set_events
          (<[2 := mkEvent "Launch" 500 600 "Nice" 80 None 3 None]>
             (events sample_db))
          (ContractService.sign_contract 3 seller
             (ContractService.create_contract 1 5000000 5000000 2 manager
                sample_db).2).2).
Proof.
  assert (Hclient : is_Some (clients sample_db !! 1))
    by (vm_compute; eauto).
  split; [exact Hclient|].
  exact (proj2 (proj2 (contract_to_event_workflow sample_db 1 5000000 5000000
                         manager seller "Launch" 500 600 "Nice" 80 None
                         eq_refl eq_refl Hclient))).
Defined.

(** ** What the contract services never change *)

Lemma exec_keeps_parties op db id contract :
  contracts db !! id = Some contract ->
  exists contract',
    contracts (exec op db) !! id = Some contract'
    /\ contract_client_id contract' = contract_client_id contract
    /\ contract_commercial_id contract' = contract_commercial_id contract.
Proof.
  intros Hget.
  assert (Hsame : exists contract',
             contracts db !! id = Some contract'
             /\ contract_client_id contract' = contract_client_id contract
             /\ contract_commercial_id contract'
                = contract_commercial_id contract) by eauto.
  assert (Hstore : forall key c,
             (key = id ->
              contract_client_id c = contract_client_id contract
              /\ contract_commercial_id c = contract_commercial_id contract) ->
             exists contract',
               contracts (set_contracts (<[key := c]> (contracts db)) db) !! id
               = Some contract'
               /\ contract_client_id contract' = contract_client_id contract
               /\ contract_commercial_id contract'
                  = contract_commercial_id contract).
  { intros key c Hkey. simpl. rewrite lookup_insert. case_decide; eauto. }
  destruct op as [client_id total due commercial_id u
                 | key u total due signed | key u | key paid u]; simpl.
  - unfold ContractService.create_contract. unfold_service.
    destruct (has_permission u "create" "contract"); simpl; [|exact Hsame].
    destruct (clients db !! client_id); simpl; [|exact Hsame].
    apply Hstore. intros Heq. rewrite <- Heq, next_id_fresh in Hget.
    discriminate.
  - unfold ContractService.update_contract. unfold_service.
    destruct (contracts db !! key) as [c|] eqn:Hkey; simpl; [|exact Hsame].
    case_owner_check u; rewrite Hkey; simpl; apply Hstore; intros ->;
      rewrite Hget in Hkey; by simplify_eq.
  - unfold ContractService.sign_contract. unfold_service.
    destruct (contracts db !! key) as [c|] eqn:Hkey; simpl; [|exact Hsame].
    case_owner_check u; destruct (contract_signed c); simpl;
      try exact Hsame; rewrite Hkey; simpl; apply Hstore; intros ->;
      rewrite Hget in Hkey; by simplify_eq.
  - unfold ContractService.update_payment. unfold_service.
    destruct (contracts db !! key) as [c|] eqn:Hkey; simpl; [|exact Hsame].
    case_owner_check u; rewrite Hkey; simpl; apply Hstore; intros ->;
      rewrite Hget in Hkey; by simplify_eq.
Qed.

(** X14. Through any sequence of [create_contract], [update_contract],
    [sign_contract] and [update_payment] calls, by any callers, a stored
    contract stays stored under its id and keeps its client and its
    commercial. *)
Theorem contract_parties_never_change
    (ops : list ContractOp) (db : Database) (id : Z) (contract : Contract) :
  contracts db !! id = Some contract ->
  exists contract',
    contracts (exec_all ops db) !! id = Some contract'
    /\ contract_client_id contract' = contract_client_id contract
    /\ contract_commercial_id contract' = contract_commercial_id contract.
Proof.
  revert db contract.
  induction ops as [|op ops IH]; intros db contract Hget; simpl.
  - eauto.
  - destruct (exec_keeps_parties op db id contract Hget)
      as (c1 & Hget1 & Hclient1 & Hcommercial1).
    destruct (IH _ _ Hget1) as (c2 & Hget2 & Hclient2 & Hcommercial2).
    exists c2. split; [exact Hget2|]. split; congruence.
Qed.

Lemma contract_parties_never_change_witness :
  contracts sample_db !! 1 = Some unsigned_contract
  /\ exists contract',
       contracts
         (exec_all [ UpdateContract 1 manager (Some 7) (Some 9) (Some true);
                     RecordPayment 1 3 seller;
                     CreateContract 1 10 10 4 manager;
                     SignContract 1 other_seller ]
                   sample_db) !! 1 = Some contract'
       /\ contract_client_id contract' = 1
       /\ contract_commercial_id contract' = Some 2.
Proof.
  assert (Hget : contracts sample_db !! 1 = Some unsigned_contract)
    by (vm_compute; reflexivity).
  split; [exact Hget|].
  exact (contract_parties_never_change _ sample_db 1 unsigned_contract Hget).
Defined.

(** ** Events: what an update keeps *)

(** The ownership test of [update_event] lets the caller through. *)
Ltac pass_support_check H :=
  destruct H as [H | [H ?]];
  [ rewrite (management_not_support _ H), (is_management_true _ H)
  | rewrite (is_support_true _ H), bool_decide_eq_false_2 by (by intros []) ];
  simpl.

(** X15. [update_event], by any caller and with any arguments, never
    moves an event to another contract and never changes who its support
    contact is; every event other than the one named is left as it
    was. *)
Theorem update_event_keeps_links
    (db : Database) (event_id id : Z) (event : Event) (current_user : User)
    (name : option string) (event_date_start event_date_end : option Z)
    (location : option string) (attendees : option Z)
    (notes : option string) :
  events db !! id = Some event ->
  exists event',
    events (EventService.update_event event_id current_user name
              event_date_start event_date_end location attendees notes db).2
      !! id = Some event'
    /\ event_contract_id event' = event_contract_id event
    /\ event_support_contact_id event' = event_support_contact_id event
    /\ (id <> event_id -> event' = event).
Proof.
  intros Hget.
  unfold EventService.update_event. unfold_service.
  destruct (events db !! event_id) as [e|] eqn:Hkey; simpl; [|by eauto].
  destruct (is_support current_user); simpl;
    [case_bool_decide; simpl|destruct (is_management current_user); simpl];
    try (by eauto).
  all: rewrite Hkey; simpl; rewrite lookup_insert; case_decide;
    [subst; rewrite Hget in Hkey; simplify_eq; eexists; split;
     [reflexivity|]; by auto
    |by eauto].
Qed.

Lemma update_event_keeps_links_witness :
  events sample_db !! 1 = Some gala
  /\ exists event',
       events (EventService.update_event 1 helper (Some "Ball") (Some 7)
                 (Some 8) (Some "Rome") (Some 9) (Some "moved") sample_db).2
         !! 1 = Some event'
       /\ event_contract_id event' = 2
       /\ event_support_contact_id event' = Some 3.
Proof.
  assert (Hget : events sample_db !! 1 = Some gala)
    by (vm_compute; reflexivity).
  split; [exact Hget|].
  destruct (update_event_keeps_links sample_db 1 1 gala helper (Some "Ball")
              (Some 7) (Some 8) (Some "Rome") (Some 9) (Some "moved") Hget)
    as (event' & Hstored & Hcontract & Hsupport & _).
  exists event'. split; [exact Hstored|]. split; assumption.
Defined.

Lemma set_events_same db id event :
  events db !! id = Some event ->
  set_events (<[id := event]> (events db)) db = db.
Proof.
  intros Hget. unfold set_events. rewrite (insert_id _ _ _ Hget).
  by destruct db.
Qed.

(** X16. An [update_event] call that passes no field returns the event as
    it is stored and leaves the database as it was; and whatever fields are
    passed, notes that are set cannot be unset, since a [None] argument
    means "keep". *)
Theorem update_event_without_fields
    (db : Database) (event_id : Z) (event : Event) (current_user : User) :
  events db !! event_id = Some event ->
  manages_or_supports current_user (event_support_contact_id event) ->
  EventService.update_event event_id current_user None None None None None
    None db = (Ok (Some event), db)
  /\ forall name event_date_start event_date_end location attendees notes
       event',
       events (EventService.update_event event_id current_user name
                 event_date_start event_date_end location attendees notes
                 db).2 !! event_id = Some event' ->
       is_Some (event_notes event) -> is_Some (event_notes event').
Proof.
  intros Hget Hown. split.
  - unfold EventService.update_event. unfold_service.
    rewrite Hget. simpl. pass_support_check Hown; rewrite Hget; simpl.
    all: replace (EventRepository.setattrs
                    (mkEventKwargs None None None None None None) event)
           with event by (by destruct event).
    all: by rewrite (set_events_same db event_id event Hget).
  - intros name event_date_start event_date_end location attendees notes
      event'.
    unfold EventService.update_event. unfold_service.
    rewrite Hget. simpl. pass_support_check Hown; rewrite Hget; simpl.
    all: rewrite lookup_insert_eq; intros Heq Hnotes; simplify_eq; simpl.
    all: destruct notes; [eauto|exact Hnotes].
Qed.

Lemma update_event_without_fields_witness :
  events sample_db !! 1 = Some gala
  /\ manages_or_supports helper (event_support_contact_id gala)
  /\ EventService.update_event 1 helper None None None None None None
       sample_db = (Ok (Some gala), sample_db).
Proof.
  assert (Hget : events sample_db !! 1 = Some gala)
    by (vm_compute; reflexivity).
  assert (Hown : manages_or_supports helper (event_support_contact_id gala))
    by (right; split; reflexivity).
  split; [exact Hget|]. split; [exact Hown|].
  exact (proj1 (update_event_without_fields sample_db 1 gala helper
                  Hget Hown)).
Defined.

(** X17. [EventRepository.assign_support_contact] hands an event to one
    support user: after it, that user's [update_event] goes through, and
    every other support user's is refused. *)
Theorem assigned_support_may_update
    (db : Database) (event_id : Z) (event : Event) (support other : User)
    (name : option string) (event_date_start event_date_end : option Z)
    (location : option string) (attendees : option Z)
    (notes : option string) :
  events db !! event_id = Some event ->
  user_department support = SUPPORT ->
  user_department other = SUPPORT ->
  user_id other <> user_id support ->
  let assigned :=
    (EventRepository.assign_support_contact event_id (user_id support)
       db).2 in
  let updated :=
    EventRepository.setattrs
      (mkEventKwargs name event_date_start event_date_end location attendees
                     notes)
      (EventModel.assign_support event (user_id support)) in
  EventService.update_event event_id support name event_date_start
    event_date_end location attendees notes assigned
  = (Ok (Some updated),
     set_events (<[event_id := updated]> (events assigned)) assigned)
  /\ EventService.update_event event_id other name event_date_start
       event_date_end location attendees notes assigned
     = (Raised (PermissionError "You can only update events assigned to you"),
        assigned).
Proof.
  intros Hget Hs Ho Hdiff assigned updated.
  assert (Hassigned :
            assigned
            = set_events
                (<[event_id := EventModel.assign_support event
                                 (user_id support)]> (events db)) db).
  { subst assigned. unfold_service. simpl. rewrite Hget. simpl.
    by rewrite ?Hget. }
  assert (Hget' : events assigned !! event_id
                  = Some (EventModel.assign_support event (user_id support)))
    by (rewrite Hassigned; apply lookup_insert_eq).
  split.
  - unfold EventService.update_event. unfold_service.
    rewrite Hget'. simpl. rewrite (is_support_true _ Hs).
    rewrite bool_decide_eq_false_2 by (by intros []). simpl.
    by rewrite Hget'.
  - unfold EventService.update_event. unfold_service.
    rewrite Hget'. simpl. rewrite (is_support_true _ Ho).
    rewrite bool_decide_eq_true_2; [reflexivity|].
    intros Heq. apply Hdiff. congruence.
Qed.

Lemma assigned_support_may_update_witness :
  events sample_db !! 1 = Some gala
  /\ user_id helper <> user_id other_helper
  /\ (EventService.update_event 1 other_helper None None None None (Some 60)
        None
        (EventRepository.assign_support_contact 1 (user_id other_helper)
           sample_db).2).1
     = Ok (Some (mkEvent "Gala" 100 200 "Paris" 60 None 2 (Some 5)))
  /\ EventService.update_event 1 helper None None None None (Some 60) None
       (EventRepository.assign_support_contact 1 (user_id other_helper)
          sample_db).2
     = (Raised (PermissionError "You can only update events assigned to you"),
        (EventRepository.assign_support_contact 1 (user_id other_helper)
           sample_db).2).
Proof.
  assert (Hget : events sample_db !! 1 = Some gala)
    by (vm_compute; reflexivity).
  assert (Hdiff : user_id helper <> user_id other_helper) by discriminate.
  split; [exact Hget|]. split; [exact Hdiff|].
  destruct (assigned_support_may_update sample_db 1 gala other_helper helper
              None None None None (Some 60) None Hget eq_refl eq_refl Hdiff)
    as [Hmine Htheirs].
  split; [by rewrite Hmine|exact Htheirs].
Defined.

(** X18. [assign_support_contact] is for management alone: any other
    caller, a commercial or the support user concerned included, is
    refused before anything is looked up. *)
Theorem assign_support_contact_refuses_others
    (jwt_decode : Token -> option Payload) (db : Database)
    (event_id support_contact_id : Z) (current_user : User) :
  user_department current_user <> MANAGEMENT ->
  EventService.assign_support_contact jwt_decode event_id support_contact_id
    current_user db
  = (Raised (PermissionError "Only management can assign support contacts"),
     db).
Proof.
  intros Hdept. unfold EventService.assign_support_contact. unfold_service.
  unfold is_management. by rewrite bool_decide_eq_false_2.
Qed.

Lemma assign_support_contact_refuses_others_witness :
  user_department seller <> MANAGEMENT
  /\ EventService.assign_support_contact sample_jwt_decode 1 3 seller
       sample_db
     = (Raised (PermissionError "Only management can assign support contacts"),
        sample_db).
Proof.
  assert (Hdept : user_department seller <> MANAGEMENT) by discriminate.
  split; [exact Hdept|].
  exact (assign_support_contact_refuses_others sample_jwt_decode sample_db
           1 3 seller Hdept).
Defined.

(** ** Listing *)

Lemma elem_of_where {Row} (cond : Row -> bool) (table : gmap Z Row) id row :
  (id, row) ∈ List.filter (fun r : Z * Row => cond r.2) (map_to_list table)
  <-> table !! id = Some row /\ cond row = true.
Proof.
  rewrite list_elem_of_In, filter_In, <- list_elem_of_In.
  by rewrite elem_of_map_to_list.
Qed.

Lemma known_department_reads u resource :
  known_department u ->
  resource = "client" \/ resource = "contract" \/ resource = "event" ->
  has_permission u "read" resource = true.
Proof.
  unfold known_department, departments. intros Hd Hr.
  apply has_permission_complete.
  rewrite !elem_of_cons, elem_of_nil in Hd.
  destruct Hd as [-> | [-> | [-> | []]]];
    destruct Hr as [-> | [-> | ->]];
    apply (bool_decide_unpack _); vm_compute; exact I.
Qed.

(** X19. [list_clients], for a caller of one of the three departments.
    With a filter id other than 0 the clients listed are those of that
    commercial, for every caller, a commercial other than the one asked
    for included. With no filter, or the filter 0, a commercial gets the
    clients they own and any other caller the first hundred rows of the
    table. The database is not changed. *)
Theorem list_clients_scope
    (db : Database) (current_user : User) (filter_commercial_id : option Z) :
  known_department current_user ->
  exists rows,
    ClientService.list_clients current_user filter_commercial_id db
    = (Ok rows, db)
    /\ (forall f, filter_commercial_id = Some f -> f <> 0 ->
        forall id c, (id, c) ∈ rows
                     <-> clients db !! id = Some c
                         /\ client_commercial_id c = Some f)
    /\ (filter_commercial_id = None \/ filter_commercial_id = Some 0 ->
        user_department current_user = COMMERCIAL ->
        forall id c, (id, c) ∈ rows
                     <-> clients db !! id = Some c
                         /\ client_commercial_id c
                            = Some (user_id current_user))
    /\ (filter_commercial_id = None \/ filter_commercial_id = Some 0 ->
        user_department current_user <> COMMERCIAL ->
        rows = take 100 (map_to_list (clients db))).
Proof.
  intros Hknown.
  unfold ClientService.list_clients. unfold_service.
  rewrite (known_department_reads _ "client" Hknown) by auto. simpl.
  assert (Hmine : forall owner id c,
            (id, c) ∈ List.filter
                        (fun r : Z * Client =>
                           bool_decide (client_commercial_id r.2 = Some owner))
                        (map_to_list (clients db))
            <-> clients db !! id = Some c
                /\ client_commercial_id c = Some owner).
  { intros owner id c.
    pose proof (elem_of_where
                  (fun c => bool_decide (client_commercial_id c = Some owner))
                  (clients db) id c) as Hwhere.
    simpl in Hwhere. rewrite Hwhere. by rewrite bool_decide_eq_true. }
  assert (Hdefault :
            exists rows,
              (if is_commercial current_user
               then fun db0 : Database =>
                      (Ok (List.filter
                             (fun r : Z * Client =>
                                bool_decide (client_commercial_id r.2
                                             = Some (user_id current_user)))
                             (map_to_list (clients db0))), db0)
               else fun db0 : Database =>
                      (Ok (take 100 (drop 0 (map_to_list (clients db0)))),
                       db0)) db = (Ok rows, db)
              /\ (user_department current_user = COMMERCIAL ->
                  forall id c, (id, c) ∈ rows
                               <-> clients db !! id = Some c
                                   /\ client_commercial_id c
                                      = Some (user_id current_user))
              /\ (user_department current_user <> COMMERCIAL ->
                  rows = take 100 (map_to_list (clients db)))).
  { unfold is_commercial. case_bool_decide as Hc; eexists;
      (split; [reflexivity|]); split; intros Hdept; done. }
  destruct filter_commercial_id as [f|]; simpl.
  - case_bool_decide as Hf; simpl.
    + eexists. split; [reflexivity|]. split; [|split].
      * intros f' [= <-] _ id c. apply Hmine.
      * intros [Hnone|[= ->]]; [discriminate|done].
      * intros [Hnone|[= ->]]; [discriminate|done].
    + destruct Hdefault as (rows & Hrun & Hcom & Hother).
      exists rows. split; [exact Hrun|]. split; [|split].
      * intros f' [= <-] Hnz. by destruct Hf.
      * intros _. exact Hcom.
      * intros _. exact Hother.
  - destruct Hdefault as (rows & Hrun & Hcom & Hother).
    exists rows. split; [exact Hrun|]. split; [|split].
    + intros f' Hsome. discriminate.
    + intros _. exact Hcom.
    + intros _. exact Hother.
Qed.

Lemma list_clients_scope_witness :
  known_department other_seller
  /\ (ClientService.list_clients other_seller (Some 2) two_clients_db).1
     = Ok [(1, acme)]
  /\ (ClientService.list_clients other_seller (Some 0) two_clients_db).1
     = Ok [(2, globex)].
Proof.
  assert (Hknown : known_department other_seller)
    by (apply (bool_decide_unpack _); vm_compute; exact I).
  split; [exact Hknown|].
  destruct (list_clients_scope two_clients_db other_seller (Some 2) Hknown)
    as (rows & Hrun & _).
  destruct (list_clients_scope two_clients_db other_seller (Some 0) Hknown)
    as (rows0 & Hrun0 & _).
  split.
  - rewrite Hrun. vm_compute in Hrun. by simplify_eq.
  - rewrite Hrun0. vm_compute in Hrun0. by simplify_eq.
Defined.

(** Membership in the rows a [where] query returns. *)
Ltac where_rows :=
  rewrite list_elem_of_In, filter_In, <- list_elem_of_In,
    elem_of_map_to_list;
  simpl; rewrite ?bool_decide_eq_true; reflexivity.

(** X20. [list_contracts], for a caller of one of the three departments:
    the filters are tried in a fixed order and the first that is set
    decides. [unsigned_only] lists the unsigned contracts of all
    commercials, whatever else is passed; then [unpaid_only] lists those
    with a positive balance; then a client id other than 0 lists that
    client's contracts; with none of these a commercial gets the contracts
    they are the commercial of. *)
Theorem list_contracts_filters
    (db : Database) (current_user : User) (unsigned_only unpaid_only : bool)
    (client_id : option Z) :
  known_department current_user ->
  exists rows,
    ContractService.list_contracts current_user unsigned_only unpaid_only
      client_id db = (Ok rows, db)
    /\ (unsigned_only = true ->
        forall id c, (id, c) ∈ rows
                     <-> contracts db !! id = Some c
                         /\ contract_signed c = false)
    /\ (unsigned_only = false -> unpaid_only = true ->
        forall id c, (id, c) ∈ rows
                     <-> contracts db !! id = Some c
                         /\ 0 < contract_amount_due c)
    /\ (unsigned_only = false -> unpaid_only = false ->
        forall k, client_id = Some k -> k <> 0 ->
        forall id c, (id, c) ∈ rows
                     <-> contracts db !! id = Some c
                         /\ contract_client_id c = k)
    /\ (unsigned_only = false -> unpaid_only = false ->
        client_id = None \/ client_id = Some 0 ->
        user_department current_user = COMMERCIAL ->
        forall id c, (id, c) ∈ rows
                     <-> contracts db !! id = Some c
                         /\ contract_commercial_id c
                            = Some (user_id current_user)).
Proof.
  intros Hknown.
  unfold ContractService.list_contracts. unfold_service.
  rewrite (known_department_reads _ "contract" Hknown) by auto. simpl.
  destruct unsigned_only; simpl.
  { eexists. split; [reflexivity|].
    split; [|split; [|split]]; [|by intros..].
    intros _ id c. where_rows. }
  destruct unpaid_only; simpl.
  { eexists. split; [reflexivity|].
    split; [by intros|split; [|split]]; [|by intros..].
    intros _ _ id c. where_rows. }
  case_bool_decide as Hk; simpl.
  { eexists. split; [reflexivity|].
    split; [by intros|split; [by intros|split]].
    - intros _ _ k -> Hnz id c. simpl. where_rows.
    - intros _ _ [-> | ->]; by destruct Hk. }
  assert (Hnone : forall k, client_id = Some k -> k = 0).
  { intros k ->. simpl in Hk. by destruct (decide (k = 0)). }
  unfold is_commercial. case_bool_decide as Hc; simpl.
  - eexists. split; [reflexivity|].
    split; [by intros|split; [by intros|split]].
    + intros _ _ k Hsome Hnz. by destruct (Hnz (Hnone k Hsome)).
    + intros _ _ _ _ id c. where_rows.
  - eexists. split; [reflexivity|].
    split; [by intros|split; [by intros|split]].
    + intros _ _ k Hsome Hnz. by destruct (Hnz (Hnone k Hsome)).
    + by intros.
Qed.

Lemma list_contracts_filters_witness :
  known_department helper
  /\ (ContractService.list_contracts helper true true (Some 9) sample_db).1
     = Ok [(1, unsigned_contract)]
  /\ (ContractService.list_contracts seller false false (Some 0)
        sample_db).1
     = Ok [(2, signed_contract); (1, unsigned_contract)].
Proof.
  assert (Hknown : known_department helper)
    by (apply (bool_decide_unpack _); vm_compute; exact I).
  assert (Hknown' : known_department seller)
    by (apply (bool_decide_unpack _); vm_compute; exact I).
  split; [exact Hknown|].
  destruct (list_contracts_filters sample_db helper true true (Some 9)
              Hknown) as (rows & Hrun & _).
  destruct (list_contracts_filters sample_db seller false false (Some 0)
              Hknown') as (rows' & Hrun' & _).
  split.
  - rewrite Hrun. vm_compute in Hrun. by simplify_eq.
  - rewrite Hrun'. vm_compute in Hrun'. by simplify_eq.
Defined.

#[local] Instance by_start_ascending_total : Total by_start_ascending.
Proof. intros a b. unfold by_start_ascending. lia. Qed.

#[local] Instance by_end_descending_total : Total by_end_descending.
Proof. intros a b. unfold by_end_descending. lia. Qed.

(** X21. [list_events], for a caller of one of the three departments and
    with [without_support] off. [upcoming_only] lists exactly the events
    that start after [now], earliest start first; otherwise [past_only]
    lists exactly the events that ended before [now], latest end first.
    Neither is narrowed to the caller's own events. *)
Theorem list_events_by_date
    (db : Database) (now : Z) (current_user : User) (past_only : bool)
    (contract_id : option Z) :
  known_department current_user ->
  (exists rows,
     EventService.list_events now current_user false true past_only
       contract_id db = (Ok rows, db)
     /\ Sorted by_start_ascending rows
     /\ forall id e, (id, e) ∈ rows
                     <-> events db !! id = Some e /\ now < event_date_start e)
  /\ (exists rows,
        EventService.list_events now current_user false false true
          contract_id db = (Ok rows, db)
        /\ Sorted by_end_descending rows
        /\ forall id e, (id, e) ∈ rows
                        <-> events db !! id = Some e
                            /\ event_date_end e < now).
Proof.
  intros Hknown.
  unfold EventService.list_events. unfold_service.
  rewrite (known_department_reads _ "event" Hknown) by auto. simpl.
  split; eexists; (split; [reflexivity|]);
    (split; [apply Sorted_merge_sort; apply _|]);
    intros id e; rewrite merge_sort_Permutation; where_rows.
Qed.

Lemma list_events_by_date_witness :
  known_department seller
  /\ (EventService.list_events 150 seller false true false None sample_db).1
     = Ok []
  /\ (EventService.list_events 250 seller false false true None sample_db).1
     = Ok [(1, gala)].
Proof.
  assert (Hknown : known_department seller)
    by (apply (bool_decide_unpack _); vm_compute; exact I).
  split; [exact Hknown|].
  destruct (list_events_by_date sample_db 150 seller false None Hknown)
    as [(rows & Hrun & _) _].
  destruct (list_events_by_date sample_db 250 seller false None Hknown)
    as [_ (rows' & Hrun' & _)].
  split.
  - rewrite Hrun. vm_compute in Hrun. by simplify_eq.
  - rewrite Hrun'. vm_compute in Hrun'. by simplify_eq.
Defined.

(** X22. [get_all] returns at most [limit] rows, each of them a stored
    row and none twice; called without an offset on a table of at most
    [limit] rows it returns them all. The services call it with the
    defaults, so an unfiltered listing stops at a hundred rows. *)
Theorem get_all_capped {Row : Type}
    (table : Database -> gmap Z Row) (skip limit : nat) (db : Database) :
  exists rows,
    BaseRepository.get_all table skip limit db = (Ok rows, db)
    /\ (length rows <= limit)%nat
    /\ NoDup rows
    /\ (forall id row, (id, row) ∈ rows -> table db !! id = Some row)
    /\ (skip = 0%nat -> (size (table db) <= limit)%nat ->
        forall id row, table db !! id = Some row -> (id, row) ∈ rows).
Proof.
  eexists. split; [reflexivity|]. split; [|split; [|split]].
  - rewrite length_take. lia.
  - eapply sublist_NoDup; [|apply sublist_take].
    eapply sublist_NoDup; [|apply sublist_drop]. apply NoDup_map_to_list.
  - intros id row Hin. apply elem_of_map_to_list.
    eapply elem_of_sublist; [|apply sublist_drop].
    eapply elem_of_sublist; [exact Hin|apply sublist_take].
  - intros -> Hsize id row Hget. simpl.
    rewrite ?drop_0, take_ge; [by apply elem_of_map_to_list|].
    rewrite length_map_to_list. exact Hsize.
Qed.

Lemma get_all_capped_witness :
  (size (clients two_clients_db) <= 100)%nat
  /\ exists rows,
       ClientRepository.get_all 0 100 two_clients_db = (Ok rows, two_clients_db)
       /\ (1, acme) ∈ rows /\ (2, globex) ∈ rows.
Proof.
  assert (Hsize : (size (clients two_clients_db) <= 100)%nat)
    by (vm_compute; lia).
  split; [exact Hsize|].
  destruct (get_all_capped clients 0 100 two_clients_db)
    as (rows & Hrun & _ & _ & _ & Hall).
  exists rows. split; [exact Hrun|].
  split; apply (Hall eq_refl Hsize); vm_compute; reflexivity.
Defined.

(** X23. The reading services, [get_client], [list_clients],
    [get_contract], [list_contracts], [get_event] and [list_events],
    leave the database as it was, whether they return or raise. *)
Theorem reading_services_store_nothing
    (db : Database) (now id : Z) (current_user : User)
    (filter_id : option Z) (a b c : bool) :
  (ClientService.get_client id current_user db).2 = db
  /\ (ClientService.list_clients current_user filter_id db).2 = db
  /\ (ContractService.get_contract id current_user db).2 = db
  /\ (ContractService.list_contracts current_user a b filter_id db).2 = db
  /\ (EventService.get_event id current_user db).2 = db
  /\ (EventService.list_events now current_user a b c filter_id db).2 = db.
Proof.
  unfold ClientService.get_client, ClientService.list_clients,
    ContractService.get_contract, ContractService.list_contracts,
    EventService.get_event, EventService.list_events.
  unfold_service.
  repeat split; repeat (simpl; case_match); simplify_eq; reflexivity.
Qed.

(** ** The decorators *)

(** X24. The three decorators refuse to run the function they wrap, and
    leave the database alone, whenever no stored user stands behind the
    token: no token file, an empty one, a token that does not decode, a
    payload without a user id or with the id 0, or an id that is not in
    the users table. *)
Theorem guards_refuse_unauthenticated {A : Type}
    (jwt_decode : Token -> option Payload) (load_token : option string)
    (db : Database) (func : User -> Service A)
    (departments : list Department) (action resource : string) :
  load_token = None
  \/ load_token = Some ""
  \/ (exists token,
        load_token = Some token
        /\ (jwt_decode (TokenStr token) = None
            \/ exists payload,
                 jwt_decode (TokenStr token) = Some payload
                 /\ (payload_user_id payload = None
                     \/ payload_user_id payload = Some 0
                     \/ exists id, payload_user_id payload = Some id
                                   /\ users db !! id = None))) ->
  let refused :=
    (Raised (PermissionError "Authentication required. Please login first."),
     db) in
  Permissions.require_auth jwt_decode load_token func db = refused
  /\ Permissions.require_department jwt_decode load_token departments func db
     = refused
  /\ Permissions.require_permission jwt_decode load_token action resource
       func db = refused.
Proof.
  intros Hnone refused. subst refused.
  assert (Hresolve :
            Permissions.get_current_user_with_session jwt_decode load_token db
            = (Ok None, db)).
  { unfold Permissions.get_current_user_with_session,
      AuthUtils.decode_access_token. unfold_service.
    destruct Hnone as [-> | [-> | (token & -> & Htoken)]]; try reflexivity.
    case_bool_decide; [reflexivity|].
    destruct Htoken as [-> | (payload & -> & Hpayload)]; [reflexivity|].
    destruct Hpayload as [-> | [-> | (id & -> & Hid)]]; try reflexivity.
    case_bool_decide; [reflexivity|]. by rewrite Hid. }
  unfold Permissions.require_auth, Permissions.require_department,
    Permissions.require_permission.
  unfold mbind, service_bind. rewrite Hresolve. done.
Qed.

Lemma guards_refuse_unauthenticated_witness :
  (exists token,
     Some "stale-token" = Some token
     /\ (sample_jwt_decode (TokenStr token) = None
         \/ exists payload,
              sample_jwt_decode (TokenStr token) = Some payload
              /\ (payload_user_id payload = None
                  \/ payload_user_id payload = Some 0
                  \/ exists id, payload_user_id payload = Some id
                                /\ users sample_db !! id = None)))
  /\ Permissions.require_permission sample_jwt_decode (Some "stale-token")
       "read" "client" (ClientService.get_client 1) sample_db
     = (Raised (PermissionError
                  "Authentication required. Please login first."),
        sample_db).
Proof.
  assert (Hstale :
            exists token,
              Some "stale-token" = Some token
              /\ (sample_jwt_decode (TokenStr token) = None
                  \/ exists payload,
                       sample_jwt_decode (TokenStr token) = Some payload
                       /\ (payload_user_id payload = None
                           \/ payload_user_id payload = Some 0
                           \/ exists id, payload_user_id payload = Some id
                                         /\ users sample_db !! id = None)))
    by (exists "stale-token"; split; [reflexivity|left; reflexivity]).
  split; [exact Hstale|].
  exact (proj2 (proj2 (guards_refuse_unauthenticated sample_jwt_decode
                         (Some "stale-token") sample_db
                         (ClientService.get_client 1) [] "read" "client"
                         (or_intror (or_intror Hstale))))).
Defined.

(** X25. When the token names a stored user, [require_auth] runs the
    function as that user; [require_department] runs it if the user's
    department is one of those listed and otherwise refuses, naming them;
    [require_permission] runs it if the user holds the permission and
    otherwise refuses, naming the action and the resource. Whether the
    user is active plays no part. *)
Theorem guards_run_for_stored_user {A : Type}
    (jwt_decode : Token -> option Payload) (load_token : option string)
    (db : Database) (func : User -> Service A)
    (departments : list Department) (action resource token : string)
    (payload : Payload) (id : Z) (user : User) :
  load_token = Some token ->
  token <> "" ->
  jwt_decode (TokenStr token) = Some payload ->
  payload_user_id payload = Some id ->
  id <> 0 ->
  users db !! id = Some user ->
  Permissions.require_auth jwt_decode load_token func db = func user db
  /\ Permissions.require_department jwt_decode load_token departments func db
     = (if bool_decide (user_department user ∈ departments)
        then func user db
        else (Raised (PermissionError
                        ("This action requires one of the following "
                         +:+ "departments: "
                         +:+ String.concat ", " departments)), db))
  /\ Permissions.require_permission jwt_decode load_token action resource
       func db
     = (if has_permission user action resource
        then func user db
        else (Raised (PermissionError
                        ("You don't have permission to " +:+ action +:+ " "
                         +:+ resource)), db)).
Proof.
  intros -> Htoken Hdecode Hid Hnz Huser.
  assert (Hresolve :
            Permissions.get_current_user_with_session jwt_decode (Some token)
              db = (Ok (Some user), db)).
  { unfold Permissions.get_current_user_with_session,
      AuthUtils.decode_access_token. unfold_service.
    rewrite bool_decide_eq_false_2 by exact Htoken.
    rewrite Hdecode, Hid.
    rewrite bool_decide_eq_false_2 by exact Hnz. by rewrite Huser. }
  unfold Permissions.require_auth, Permissions.require_department,
    Permissions.require_permission.
  unfold mbind, service_bind. rewrite Hresolve.
  split; [reflexivity|]. split.
  - unfold raise_if, raise, mret, service_ret.
    by destruct (bool_decide (user_department user ∈ departments)).
  - unfold raise_if, raise, mret, service_ret.
    by destruct (has_permission user action resource).
Qed.

Lemma guards_run_for_stored_user_witness :
  sample_jwt_decode (TokenStr "helper-token") = Some (mkPayload (Some 3))
  /\ users sample_db !! 3 = Some helper
  /\ Permissions.require_department sample_jwt_decode (Some "helper-token")
       [COMMERCIAL; MANAGEMENT] (ClientService.get_client 1) sample_db
     = (Raised (PermissionError
                  "This action requires one of the following departments: COMMERCIAL, MANAGEMENT"),
        sample_db)
  /\ Permissions.require_permission sample_jwt_decode (Some "helper-token")
       "create" "client" (ClientService.get_client 1) sample_db
     = (Raised (PermissionError "You don't have permission to create client"),
        sample_db)
  /\ Permissions.require_permission sample_jwt_decode (Some "helper-token")
       "read" "client" (ClientService.get_client 1) sample_db
     = (Ok (Some acme), sample_db).
Proof.
  assert (Huser : users sample_db !! 3 = Some helper)
    by (vm_compute; reflexivity).
  assert (Hnonempty : "helper-token" <> "") by discriminate.
  assert (Hnz : 3 <> 0) by lia.
  split; [reflexivity|]. split; [exact Huser|].
  split; [|split].
  - destruct (guards_run_for_stored_user sample_jwt_decode
                (Some "helper-token") sample_db (ClientService.get_client 1)
                [COMMERCIAL; MANAGEMENT] "read" "client" "helper-token"
                (mkPayload (Some 3)) 3 helper eq_refl Hnonempty eq_refl
                eq_refl Hnz Huser) as (_ & Hdept & _).
    rewrite Hdept. vm_compute. reflexivity.
  - destruct (guards_run_for_stored_user sample_jwt_decode
                (Some "helper-token") sample_db (ClientService.get_client 1)
                [] "create" "client" "helper-token"
                (mkPayload (Some 3)) 3 helper eq_refl Hnonempty eq_refl
                eq_refl Hnz Huser) as (_ & _ & Hperm).
    rewrite Hperm. vm_compute. reflexivity.
  - destruct (guards_run_for_stored_user sample_jwt_decode
                (Some "helper-token") sample_db (ClientService.get_client 1)
                [] "read" "client" "helper-token"
                (mkPayload (Some 3)) 3 helper eq_refl Hnonempty eq_refl
                eq_refl Hnz Huser) as (_ & _ & Hperm).
    rewrite Hperm. vm_compute. reflexivity.
Defined.

(** X26. A function under [require_permission] returns a value only if
    it was run as a stored user, named by the token, who holds the
    permission. *)
Theorem require_permission_sound {A : Type}
    (jwt_decode : Token -> option Payload) (load_token : option string)
    (db db' : Database) (func : User -> Service A)
    (action resource : string) (value : A) :
  Permissions.require_permission jwt_decode load_token action resource func
    db = (Ok value, db') ->
  exists token payload id user,
    load_token = Some token
    /\ jwt_decode (TokenStr token) = Some payload
    /\ payload_user_id payload = Some id
    /\ users db !! id = Some user
    /\ has_permission user action resource = true
    /\ func user db = (Ok value, db').
Proof.
  unfold Permissions.require_permission,
    Permissions.get_current_user_with_session,
    AuthUtils.decode_access_token.
  unfold_service.
  destruct load_token as [token|]; simpl; [|discriminate].
  case_bool_decide; simpl; [discriminate|].
  destruct (jwt_decode (TokenStr token)) as [payload|] eqn:Hdecode; simpl;
    [|discriminate].
  destruct (payload_user_id payload) as [id|] eqn:Hid; simpl; [|discriminate].
  case_bool_decide; simpl; [discriminate|].
  destruct (users db !! id) as [user|] eqn:Huser; simpl; [|discriminate].
  destruct (has_permission user action resource) eqn:Hperm; simpl;
    [|discriminate].
  intros Hrun. by exists token, payload, id, user.
Qed.

Lemma require_permission_sound_witness :
  Permissions.require_permission sample_jwt_decode (Some "manager-token")
    "create" "contract"
    (ContractService.create_contract 1 100 100 2) sample_db
  = (Ok (3, mkContract 100 100 false 1 (Some 2)),
     set_contracts (<[3 := mkContract 100 100 false 1 (Some 2)]>
                      (contracts sample_db)) sample_db)
  /\ exists token payload id user,
       Some "manager-token" = Some token
       /\ sample_jwt_decode (TokenStr token) = Some payload
       /\ payload_user_id payload = Some id
       /\ users sample_db !! id = Some user
       /\ has_permission user "create" "contract" = true.
Proof.
  assert (Hrun :
            Permissions.require_permission sample_jwt_decode
              (Some "manager-token") "create" "contract"
              (ContractService.create_contract 1 100 100 2) sample_db
            = (Ok (3, mkContract 100 100 false 1 (Some 2)),
               set_contracts (<[3 := mkContract 100 100 false 1 (Some 2)]>
                                (contracts sample_db)) sample_db))
    by (vm_compute; reflexivity).
  split; [exact Hrun|].
  destruct (require_permission_sound _ _ _ _ _ _ _ _ Hrun)
    as (token & payload & id & user & Ht & Hd & Hi & Hu & Hp & _).
  by exists token, payload, id, user.
Defined.

(** ** Repositories *)

(** X27. A repository over a table that can be read back after it is
    written. When the row breaks no unique index, [create] stores it under
    an id that was free, keeps every row already there, and makes [count]
    one more, and [get_by_id] on the new id returns the row; when it
    breaks one, [create] raises [IntegrityError] and stores nothing.
    [update] on an id that is not stored returns [None] and stores
    nothing; on a stored row it stores the changed row, which [get_by_id]
    then returns, unless the changed row breaks a unique index, in which
    case it raises and stores nothing. *)
Theorem repository_round_trips {Row : Type}
    (table : Database -> gmap Z Row)
    (set_table : gmap Z Row -> Database -> Database)
    (breaks_unique : gmap Z Row -> Z -> Row -> bool)
    (db : Database) (instance : Row) (id : Z) (setattrs : Row -> Row) :
  (forall t d, table (set_table t d) = t) ->
  let new := next_id (table db) in
  (breaks_unique (table db) new instance = false ->
   exists created,
     BaseRepository.create table set_table breaks_unique instance db
     = (Ok (new, instance), created)
     /\ table db !! new = None
     /\ BaseRepository.get_by_id table new created
        = (Ok (Some instance), created)
     /\ (forall k row, table db !! k = Some row ->
                       table created !! k = Some row)
     /\ (BaseRepository.count table created).1
        = Ok (Z.of_nat (size (table db)) + 1))
  /\ (breaks_unique (table db) new instance = true ->
      BaseRepository.create table set_table breaks_unique instance db
      = (Raised IntegrityError, db))
  /\ (table db !! id = None ->
      BaseRepository.update table set_table breaks_unique id setattrs db
      = (Ok None, db))
  /\ (forall row, table db !! id = Some row ->
      (breaks_unique (table db) id (setattrs row) = false ->
       exists updated,
         BaseRepository.update table set_table breaks_unique id setattrs db
         = (Ok (Some (setattrs row)), updated)
         /\ BaseRepository.get_by_id table id updated
            = (Ok (Some (setattrs row)), updated))
      /\ (breaks_unique (table db) id (setattrs row) = true ->
          BaseRepository.update table set_table breaks_unique id setattrs db
          = (Raised IntegrityError, db))).
Proof.
  intros Hread new. subst new. split; [|split; [|split]].
  - intros Hfits. unfold_service. rewrite Hfits.
    eexists. split; [reflexivity|].
    split; [apply next_id_fresh|]. rewrite !Hread.
    split; [by rewrite lookup_insert_eq|]. split.
    + intros k row Hk. rewrite lookup_insert_ne; [exact Hk|].
      intros <-. by rewrite next_id_fresh in Hk.
    + simpl. rewrite map_size_insert_None by apply next_id_fresh.
      f_equal. lia.
  - intros Hbreaks. unfold_service. by rewrite Hbreaks.
  - intros Hnone. unfold_service. by rewrite Hnone.
  - intros row Hrow. split.
    + intros Hfits. unfold_service. rewrite Hrow. simpl. rewrite Hfits.
      eexists. split; [reflexivity|]. by rewrite Hread, lookup_insert_eq.
    + intros Hbreaks. unfold_service. rewrite Hrow. simpl.
      by rewrite Hbreaks.
Qed.

(** A client with a new address is stored; one with the address of a
    stored client is not. *)
Lemma repository_round_trips_witness :
  (forall t d, clients (set_clients t d) = t)
  /\ clients_email_unique (clients sample_db) 2 globex = false
  /\ clients_email_unique (clients sample_db) 2
       (mkClient "Johnny" "john@acme.test" "+33" "Acme 2" None) = true
  /\ (exists created,
        BaseRepository.create clients set_clients clients_email_unique globex
          sample_db = (Ok (2, globex), created)
        /\ BaseRepository.get_by_id clients 2 created
           = (Ok (Some globex), created))
  /\ BaseRepository.create clients set_clients clients_email_unique
       (mkClient "Johnny" "john@acme.test" "+33" "Acme 2" None) sample_db
     = (Raised IntegrityError, sample_db).
Proof.
  assert (Hread : forall t d, clients (set_clients t d) = t)
    by reflexivity.
  assert (Hfits : clients_email_unique (clients sample_db)
                    (next_id (clients sample_db)) globex = false)
    by (vm_compute; reflexivity).
  assert (Hbreaks : clients_email_unique (clients sample_db)
                      (next_id (clients sample_db))
                      (mkClient "Johnny" "john@acme.test" "+33" "Acme 2" None)
                    = true)
    by (vm_compute; reflexivity).
  split; [exact Hread|]. split; [exact Hfits|]. split; [exact Hbreaks|].
  split.
  - destruct (repository_round_trips clients set_clients
                clients_email_unique sample_db globex 1 (fun c => c) Hread)
      as (Hcreate & _).
    destruct (Hcreate Hfits) as (created & Hrun & _ & Hget & _).
    exists created. split; [exact Hrun|exact Hget].
  - destruct (repository_round_trips clients set_clients
                clients_email_unique sample_db
                (mkClient "Johnny" "john@acme.test" "+33" "Acme 2" None) 1
                (fun c => c) Hread) as (_ & Hraise & _).
    exact (Hraise Hbreaks).
Defined.

(** ** Lists after a change *)

(** X28. The contract lists follow the state of a contract. An unsigned
    contract is in the [unsigned_only] list and is gone from it once
    [sign_contract] has gone through, the rest of the list being the
    same. After [update_payment] the contract is in the [unpaid_only]
    list exactly when the amount paid is below its total. *)
Theorem contract_lists_follow_state
    (db : Database) (contract_id paid : Z) (contract : Contract)
    (current_user reader : User) (unpaid_only : bool) (client_id : option Z) :
  contracts db !! contract_id = Some contract ->
  contract_signed contract = false ->
  manages_or_owns current_user (contract_commercial_id contract) ->
  known_department reader ->
  (exists before after,
     (ContractService.list_contracts reader true unpaid_only client_id db).1
     = Ok before
     /\ (ContractService.list_contracts reader true unpaid_only client_id
          (ContractService.sign_contract contract_id current_user db).2).1
        = Ok after
     /\ (contract_id, contract) ∈ before
     /\ (forall row, (contract_id, row) ∉ after)
     /\ (forall id row, id <> contract_id ->
           (id, row) ∈ after <-> (id, row) ∈ before))
  /\ (exists unpaid,
        (ContractService.list_contracts reader false true client_id
           (ContractService.update_payment contract_id paid current_user
              db).2).1 = Ok unpaid
        /\ ((exists row, (contract_id, row) ∈ unpaid)
            <-> paid < contract_total_amount contract)).
Proof.
  intros Hget Hunsigned Hown Hknown.
  rewrite (sign_contract_run db contract_id contract current_user Hget
             Hunsigned Hown).
  rewrite (update_payment_run db contract_id paid contract current_user Hget
             Hown).
  unfold ContractService.list_contracts. unfold_service.
  rewrite (known_department_reads _ "contract" Hknown) by auto. simpl.
  split.
  - eexists _, _. split; [reflexivity|]. split; [reflexivity|].
    split; [|split].
    + rewrite list_elem_of_In, filter_In, <- list_elem_of_In,
        elem_of_map_to_list.
      simpl. by rewrite Hunsigned.
    + intros row.
      rewrite list_elem_of_In, filter_In, <- list_elem_of_In,
        elem_of_map_to_list.
      rewrite lookup_insert_eq. intros [[= <-] Hrow]. discriminate Hrow.
    + intros id row Hid.
      rewrite !list_elem_of_In, !filter_In, <- !list_elem_of_In,
        !elem_of_map_to_list.
      by rewrite lookup_insert_ne.
  - eexists. split; [reflexivity|]. split.
    + intros [row Hrow]. revert Hrow.
      rewrite list_elem_of_In, filter_In, <- list_elem_of_In,
        elem_of_map_to_list.
      rewrite lookup_insert_eq. intros [[= <-] Hdue]. simpl in Hdue.
      apply bool_decide_eq_true in Hdue. lia.
    + intros Hpaid. eexists.
      rewrite list_elem_of_In, filter_In, <- list_elem_of_In,
        elem_of_map_to_list.
      rewrite lookup_insert_eq. split; [reflexivity|]. simpl.
      apply bool_decide_eq_true. lia.
Qed.

Lemma contract_lists_follow_state_witness :
  contracts sample_db !! 1 = Some unsigned_contract
  /\ manages_or_owns seller (contract_commercial_id unsigned_contract)
  /\ known_department helper
  /\ (ContractService.list_contracts helper true false None sample_db).1
     = Ok [(1, unsigned_contract)]
  /\ (ContractService.list_contracts helper true false None
        (ContractService.sign_contract 1 seller sample_db).2).1
     = Ok [].
Proof.
  assert (Hget : contracts sample_db !! 1 = Some unsigned_contract)
    by (vm_compute; reflexivity).
  assert (Hown : manages_or_owns seller
                   (contract_commercial_id unsigned_contract))
    by (right; split; reflexivity).
  assert (Hknown : known_department helper)
    by (apply (bool_decide_unpack _); vm_compute; exact I).
  split; [exact Hget|]. split; [exact Hown|]. split; [exact Hknown|].
  destruct (contract_lists_follow_state sample_db 1 0 unsigned_contract
              seller helper false None Hget eq_refl Hown Hknown)
    as [(before & after & Hbefore & Hafter & _) _].
  split.
  - rewrite Hbefore. vm_compute in Hbefore. by simplify_eq.
  - rewrite Hafter. vm_compute in Hafter. by simplify_eq.
Defined.

Lemma assign_support_contact_run db event_id event support_contact_id :
  events db !! event_id = Some event ->
  EventRepository.assign_support_contact event_id support_contact_id db
  = (Ok (Some (EventModel.assign_support event support_contact_id)),
     set_events
       (<[event_id := EventModel.assign_support event support_contact_id]>
          (events db)) db).
Proof.
  intros Hget. unfold_service. simpl. rewrite Hget. simpl. by rewrite ?Hget.
Qed.

(** X29. The event lists follow the assignment. Once
    [EventRepository.assign_support_contact] has given an event to a
    support user, the event is in the list that user gets by default,
    which holds their events only, and it is no longer in the
    [without_support] list, which holds unassigned events only, whatever
    other filter is passed with it. *)
Theorem event_lists_follow_assignment
    (db : Database) (now event_id : Z) (event : Event)
    (support reader : User) (upcoming_only past_only : bool)
    (contract_id : option Z) :
  events db !! event_id = Some event ->
  user_department support = SUPPORT ->
  known_department reader ->
  let assigned :=
    (EventRepository.assign_support_contact event_id (user_id support)
       db).2 in
  exists mine unassigned,
    (EventService.list_events now support false false false None assigned).1
    = Ok mine
    /\ (EventService.list_events now reader true upcoming_only past_only
          contract_id assigned).1 = Ok unassigned
    /\ (event_id, EventModel.assign_support event (user_id support)) ∈ mine
    /\ (forall id row, (id, row) ∈ mine ->
          event_support_contact_id row = Some (user_id support))
    /\ (forall row, (event_id, row) ∉ unassigned)
    /\ (forall id row, (id, row) ∈ unassigned ->
          event_support_contact_id row = None).
Proof.
  intros Hget Hs Hknown assigned. subst assigned.
  rewrite (assign_support_contact_run db event_id event (user_id support)
             Hget).
  assert (Hsupport : known_department support)
    by (unfold known_department; rewrite Hs;
        apply (bool_decide_unpack _); vm_compute; exact I).
  unfold EventService.list_events. unfold_service.
  rewrite (known_department_reads _ "event" Hknown) by auto.
  rewrite (known_department_reads _ "event" Hsupport) by auto.
  rewrite (is_support_true _ Hs). simpl.
  eexists _, _. split; [reflexivity|]. split; [reflexivity|].
  split; [|split; [|split]].
  - rewrite list_elem_of_In, filter_In, <- list_elem_of_In,
      elem_of_map_to_list.
    rewrite lookup_insert_eq. split; [reflexivity|]. simpl.
    by apply bool_decide_eq_true.
  - intros id row.
    rewrite list_elem_of_In, filter_In. intros [_ Hrow]. simpl in Hrow.
    by apply bool_decide_eq_true in Hrow.
  - intros row.
    rewrite list_elem_of_In, filter_In, <- list_elem_of_In,
      elem_of_map_to_list.
    rewrite lookup_insert_eq. intros [[= <-] Hrow]. by simpl in Hrow.
  - intros id row.
    rewrite list_elem_of_In, filter_In. intros [_ Hrow]. simpl in Hrow.
    by apply bool_decide_eq_true in Hrow.
Qed.

Lemma event_lists_follow_assignment_witness :
  events sample_db !! 1 = Some gala
  /\ known_department manager
  /\ (EventService.list_events 0 other_helper false false false None
        (EventRepository.assign_support_contact 1 (user_id other_helper)
           sample_db).2).1
     = Ok [(1, mkEvent "Gala" 100 200 "Paris" 50 None 2 (Some 5))]
  /\ (EventService.list_events 0 manager true true true (Some 2)
        (EventRepository.assign_support_contact 1 (user_id other_helper)
           sample_db).2).1
     = Ok [].
Proof.
  assert (Hget : events sample_db !! 1 = Some gala)
    by (vm_compute; reflexivity).
  assert (Hknown : known_department manager)
    by (apply (bool_decide_unpack _); vm_compute; exact I).
  split; [exact Hget|]. split; [exact Hknown|].
  destruct (event_lists_follow_assignment sample_db 0 1 gala other_helper
              manager true true (Some 2) Hget eq_refl Hknown)
    as (mine & unassigned & Hmine & Hunassigned & _).
  split.
  - rewrite Hmine. vm_compute in Hmine. by simplify_eq.
  - rewrite Hunassigned. vm_compute in Hunassigned. by simplify_eq.
Defined.

(** X30. [ClientRepository.assign_commercial] hands a client over: after
    it the new commercial's [update_client] goes through, the client is in
    the list that commercial gets by default, and any other commercial,
    the former owner included, is refused. *)
Theorem assign_commercial_hands_over
    (db : Database) (client_id : Z) (client : Client) (owner former : User)
    (full_name phone company_name : option string) :
  clients db !! client_id = Some client ->
  user_department owner = COMMERCIAL ->
  user_department former = COMMERCIAL ->
  user_id former <> user_id owner ->
  let handed :=
    mkClient (client_full_name client) (client_email client)
             (client_phone client) (client_company_name client)
             (Some (user_id owner)) in
  let assigned :=
    (ClientRepository.assign_commercial client_id (user_id owner) db).2 in
  let updated :=
    mkClient (default (client_full_name client) full_name)
             (client_email client)
             (default (client_phone client) phone)
             (default (client_company_name client) company_name)
             (Some (user_id owner)) in
  ClientService.update_client client_id owner full_name None phone
    company_name None assigned
  = (Ok (Some updated),
     set_clients (<[client_id := updated]> (clients assigned)) assigned)
  /\ ClientService.update_client client_id former full_name None phone
       company_name None assigned
     = (Raised (PermissionError "You can only update your own clients"),
        assigned)
  /\ exists rows,
       (ClientService.list_clients owner None assigned).1 = Ok rows
       /\ (client_id, handed) ∈ rows.
Proof.
  intros Hget Ho Hf Hdiff handed assigned updated.
  assert (Hassigned :
            assigned
            = set_clients (<[client_id := handed]> (clients db)) db).
  { subst assigned. unfold_service. simpl. rewrite Hget. simpl.
    by rewrite (email_kept_never_breaks (clients db) client_id client). }
  assert (Hget' : clients assigned !! client_id = Some handed)
    by (rewrite Hassigned; apply lookup_insert_eq).
  split; [|split].
  - unfold ClientService.update_client. unfold_service.
    rewrite Hget'. simpl. rewrite (is_commercial_true _ Ho).
    rewrite bool_decide_eq_false_2 by (by intros []). simpl.
    rewrite Hget'. simpl.
    by rewrite (email_kept_never_breaks (clients assigned) client_id handed).
  - unfold ClientService.update_client. unfold_service.
    rewrite Hget'. simpl. rewrite (is_commercial_true _ Hf).
    rewrite bool_decide_eq_true_2; [reflexivity|].
    intros Heq. apply Hdiff. simpl in Heq. congruence.
  - assert (Hknown : known_department owner)
      by (unfold known_department; rewrite Ho;
          apply (bool_decide_unpack _); vm_compute; exact I).
    unfold ClientService.list_clients. unfold_service.
    rewrite (known_department_reads _ "client" Hknown) by auto. simpl.
    rewrite (is_commercial_true _ Ho). simpl.
    eexists. split; [reflexivity|].
    rewrite list_elem_of_In, filter_In, <- list_elem_of_In,
      elem_of_map_to_list.
    split; [exact Hget'|]. simpl. by apply bool_decide_eq_true.
Qed.

Lemma assign_commercial_hands_over_witness :
  clients sample_db !! 1 = Some acme
  /\ user_id seller <> user_id other_seller
  /\ ClientService.update_client 1 seller (Some "J. Doe") None None None None
       (ClientRepository.assign_commercial 1 (user_id other_seller)
          sample_db).2
     = (Raised (PermissionError "You can only update your own clients"),
        (ClientRepository.assign_commercial 1 (user_id other_seller)
           sample_db).2)
  /\ (ClientService.update_client 1 other_seller (Some "J. Doe") None None
        None None
        (ClientRepository.assign_commercial 1 (user_id other_seller)
           sample_db).2).1
     = Ok (Some (mkClient "J. Doe" "john@acme.test" "+33600000000" "Acme"
                          (Some 4))).
Proof.
  assert (Hget : clients sample_db !! 1 = Some acme)
    by (vm_compute; reflexivity).
  assert (Hdiff : user_id seller <> user_id other_seller) by discriminate.
  split; [exact Hget|]. split; [exact Hdiff|].
  destruct (assign_commercial_hands_over sample_db 1 acme other_seller seller
              (Some "J. Doe") None None Hget eq_refl eq_refl Hdiff)
    as (Hnew & Hold & _).
  split; [exact Hold|]. by rewrite Hnew.
Defined.
